(** * Q-Drift: the simulation-and-metrics engine of [src/main.py]

    A shallow embedding of the Python module and the properties that its
    specification states about it.

    Conventions of the embedding.
    - A Python [int] is a [Z].  A Python [float] is read as the real number
      it denotes and its arithmetic as exact arithmetic on [R]: rounding to
      binary64, NaN and signed zeros are outside the model.  [math.log2] is
      [ln x / ln 2].  The generator's probability and the thresholds of the
      classification, which use no logarithm, are also given on binary64
      floats ([Binary64]), where they evaluate.
    - The process-wide random source of the [random] module is an abstract
      state with the two operations the program uses, [random.seed] and
      [random.random].
    - What [analyze] does to the process (random source, console, files) is
      explicit state passing over a [world]; the local variables of
      [analyze] at the point where it returns or exits are kept in a
      [frame]. *)

From Stdlib Require Import Floats.
From Stdlib Require Import Reals Lra Lia ZArith List String Ascii Bool.
From Stdlib Require Import Permutation.
Import ListNotations.

Set Warnings "-inexact-float".

Open Scope Z_scope.
Open Scope R_scope.

(** ** Python builtins on numbers *)

Module Py.

(** [a < b] on floats, as a boolean. *)
Definition ltb (a b : R) : bool := if Rlt_dec a b then true else false.

(** [a <= b] on floats, as a boolean. *)
Definition leb (a b : R) : bool := if Rle_dec a b then true else false.

(** [min(a, b)]: the first argument unless the second is strictly smaller. *)
Definition min (a b : R) : R := if ltb b a then b else a.

(** [max(a, b)]: the first argument unless the second is strictly larger. *)
Definition max (a b : R) : R := if ltb a b then b else a.

(** [abs(x)]. *)
Definition abs (x : R) : R := Rabs x.

(** [math.log2(x)]; Python raises [ValueError] when [x <= 0], which no call
    of this program reaches (see [Counter_values_positive]). *)
Definition log2 (x : R) : R := ln x / ln 2.

(** [len(l)]. *)
Definition len {A : Type} (l : list A) : Z := Z.of_nat (List.length l).

(** [l.count(x)] on a list of integers. *)
Fixpoint count (l : list Z) (x : Z) : Z :=
  match l with
  | [] => 0%Z
  | y :: l' => ((if Z.eqb y x then 1 else 0) + count l' x)%Z
  end.

(** [a / b], true division of two integers; Python raises
    [ZeroDivisionError] when [b] is 0, which the guards on [total] exclude
    at every call of this program. *)
Definition truediv (a b : Z) : R := IZR a / IZR b.

End Py.

(** ** [collections.Counter]

    A [Counter] is a dict from the values seen to how often they were seen;
    a Python dict iterates in insertion order, so the model is an
    association list in the order of first occurrence. *)

Definition counter := list (Z * Z).

(** [c[k] += 1], inserting [k] at the end when it is new. *)
Fixpoint counter_incr (k : Z) (c : counter) : counter :=
  match c with
  | [] => [(k, 1%Z)]
  | (k', n) :: c' =>
      if Z.eqb k' k then (k', (n + 1)%Z) :: c' else (k', n) :: counter_incr k c'
  end.

(** [Counter(states)]. *)
Definition Counter (states : list Z) : counter :=
  fold_left (fun c k => counter_incr k c) states [].

(** [c.values()]. *)
Definition values (c : counter) : list Z := map snd c.

(** [c.get(k, default)]. *)
Fixpoint get (c : counter) (k : Z) (default : Z) : Z :=
  match c with
  | [] => default
  | (k', n) :: c' => if Z.eqb k' k then n else get c' k default
  end.

(** ** MetricsEngine *)

(** One turn of the loop of [calculate_entropy]:
    [p = count / total; entropy -= p * math.log2(p)]. *)
Definition entropy_step (total : Z) (entropy : R) (count : Z) : R :=
  let p := Py.truediv count total in
  entropy - p * Py.log2 p.

(** [calculate_entropy(states)], lines 22-32. *)
Definition calculate_entropy (states : list Z) : R :=
  let total := Py.len states in
  if Z.eqb total 0 then 0.0
  else
    let counts := Counter states in
    fold_left (entropy_step total) (values counts) 0.0.

(** [calculate_collapse_bias(states)], lines 35-41. *)
Definition calculate_collapse_bias (states : list Z) : R :=
  let total := Py.len states in
  if Z.eqb total 0 then 0.0
  else
    let ones_ratio := Py.truediv (Py.count states 1) total in
    Py.abs (ones_ratio - 0.5).

(** ** OutcomeGenerator *)

(** The process-wide random source of the [random] module: [random.seed(n)]
    sets the state from the integer alone, [random.random()] returns the next
    float in [[0, 1)] and advances the state. *)
Class RandomSource : Type := {
  rng_state : Type;
  rng_seed : Z -> rng_state;
  rng_random : rng_state -> R * rng_state;
  rng_random_range : forall s, 0 <= fst (rng_random s) < 1
}.

(** Lines 16-18 of [quantum_gate_simulation]: the value of
    [shifted_probability] when the draw is made. *)
Definition shifted_probability (noise_level : R) : R :=
  let base_probability := 0.9 in
  let shifted_probability := base_probability * (1.0 - noise_level) in
  Py.max 0.0 (Py.min 1.0 shifted_probability).

(** Line 19 for a given draw: [1 if r < shifted_probability else 0]. *)
Definition collapse (r shifted_probability : R) : Z :=
  if Py.ltb r shifted_probability then 1%Z else 0%Z.

(** [quantum_gate_simulation(noise_level)], lines 14-19, on the state of the
    random source. *)
Definition quantum_gate_simulation `{RandomSource}
  (noise_level : R) (s : rng_state) : Z * rng_state :=
  let p := shifted_probability noise_level in
  let (r, s') := rng_random s in
  (collapse r p, s').

(** [[quantum_gate_simulation(noise) for _ in range(n)]]: the outcomes in
    generation order. *)
Fixpoint comprehension `{RandomSource}
  (noise : R) (n : nat) (s : rng_state) : list Z * rng_state :=
  match n with
  | O => ([], s)
  | S n' =>
      let (x, s1) := quantum_gate_simulation noise s in
      let (xs, s2) := comprehension noise n' s1 in
      (x :: xs, s2)
  end.

(** ** Console, files and the process state *)

(** The pieces of an f-string: literal text and formatted values.  How a
    float prints is not modelled, the value that is printed is. *)
Inductive fragment : Type :=
| Lit (s : string)
| Int (n : Z)
| Float (x : R)
| Round (x : R) (ndigits : Z)
| Bar (n : Z).

Definition text := list fragment.

(** What is handed to [console.print]. *)
Inductive renderable : Type :=
| Markup (t : text)
| PanelFit (body : text) (title border_style : string)
| Table (title : string) (columns : list (string * string))
    (rows : list (text * text)).

(** The value that [json.dump] serialises. *)
#[warnings="-register-all"]
Inductive json : Type :=
| JNull
| JInt (n : Z)
| JFloat (x : R)
| JString (s : string)
| JObject (members : list (string * json)).

(** The process as [analyze] sees it: the random source, what was printed on
    the console (oldest first), the files written, and for each path the
    [IOError] that opening it for writing raises, if any.  A write that
    fails once the file is open is not modelled. *)
Record world `{RandomSource} : Type := {
  rng : rng_state;
  console : list renderable;
  files : string -> option json;
  open_error : string -> option string
}.

(** The local variables of [analyze] once the outcomes are generated. *)
Record frame : Type := {
  results : list Z;
  entropy : R;
  bias : R;
  state_0_count : Z;
  state_1_count : Z;
  status_msg : string;
  exit_code : Z
}.

(** How a call of [analyze] ends: the process state it leaves, its local
    variables ([None] when it exits before generating outcomes), and the
    exit status of the process (0 when the function returns,
    [code] on [raise typer.Exit(code=code)]). *)
Record run `{RandomSource} : Type := {
  final : world;
  locals : option frame;
  exit_status : Z
}.

Section Process.
Context `{RandomSource}.

(** [random.seed(n)]. *)
Definition random_seed (n : Z) (w : world) : world :=
  {| rng := rng_seed n; console := console w;
     files := files w; open_error := open_error w |}.

(** [console.print(r)]. *)
Definition console_print (r : renderable) (w : world) : world :=
  {| rng := rng w; console := console w ++ [r];
     files := files w; open_error := open_error w |}.

(** [with open(path, "w") as f: json.dump(data, f, indent=4)], when the
    file opens. *)
Definition write_json (path : string) (data : json) (w : world) : world :=
  {| rng := rng w; console := console w;
     files := fun p => if String.eqb p path then Some data else files w p;
     open_error := open_error w |}.

(** The list comprehension of lines 87 and 89, run on the process state. *)
Definition simulate (noise : R) (simulations : Z) (w : world)
  : list Z * world :=
  let (xs, s) := comprehension noise (Z.to_nat simulations) (rng w) in
  (xs, {| rng := s; console := console w;
          files := files w; open_error := open_error w |}).

(** [int(x)]: truncation toward zero. *)
Definition py_int (x : R) : Z :=
  if Py.ltb x 0 then (- Int_part (- x))%Z else Int_part x.

(** [render_distribution_chart(count_0, count_1)], lines 44-59. *)
Definition render_distribution_chart (count_0 count_1 : Z) (w : world)
  : world :=
  let total := (count_0 + count_1)%Z in
  if Z.eqb total 0 then w
  else
    let bar_width := 40%Z in
    let ratio_0 := Py.truediv count_0 total in
    let ratio_1 := Py.truediv count_1 total in
    let bar_0 := Bar (py_int (ratio_0 * IZR bar_width)) in
    let bar_1 := Bar (py_int (ratio_1 * IZR bar_width)) in
    console_print
      (PanelFit
         [Lit "[cyan]State |0> (Fail)[/cyan]  "; bar_0; Lit " "; Int count_0;
          Lit " ("; Round (ratio_0 * 100) 1; Lit "%)
";
          Lit "[magenta]State |1> (Pass)[/magenta]  "; bar_1; Lit " ";
          Int count_1; Lit " ("; Round (ratio_1 * 100) 1; Lit "%)"]
         "📊 Qubit Collapse Distribution" "blue") w.

(** Lines 115-130 of [analyze]: [status_msg] and [exit_code] from the
    entropy, and the status line printed unless [ci_mode]. *)
Definition classify (entropy : R) (ci_mode : bool) (w : world)
  : string * Z * world :=
  if Py.ltb 0.8 entropy then
    let status_msg := "CRITICAL: High structural fragility detected."%string in
    (status_msg, 1%Z,
     if negb ci_mode
     then console_print
            (Markup [Lit "[bold red]🚨 "; Lit status_msg; Lit "[/bold red]"]) w
     else w)
  else if Py.ltb 0.4 entropy then
    let status_msg := "WARNING: Moderate drift detected."%string in
    (status_msg, 0%Z,
     if negb ci_mode
     then console_print
            (Markup [Lit "[bold yellow]⚠️ "; Lit status_msg;
                     Lit "[/bold yellow]"]) w
     else w)
  else
    let status_msg := "STABLE: System appears robust."%string in
    (status_msg, 0%Z,
     if negb ci_mode
     then console_print
            (Markup [Lit "[bold green]✅ "; Lit status_msg;
                     Lit "[/bold green]"]) w
     else w).

(** The dict [data] of lines 134-147. *)
Definition report_data (simulations : Z) (noise : R) (seed : option Z)
  (fr : frame) : json :=
  JObject
    [("simulations"%string, JInt simulations);
     ("noise_level"%string, JFloat noise);
     ("seed"%string, match seed with Some s => JInt s | None => JNull end);
     ("metrics"%string,
      JObject
        [("entropy"%string, JFloat (entropy fr));
         ("bias"%string, JFloat (bias fr));
         ("distribution"%string,
          JObject [("0_fail"%string, JInt (state_0_count fr));
                   ("1_pass"%string, JInt (state_1_count fr))])]);
     ("status"%string, JString (status_msg fr))].

(** The truth value of [output] in [if output:]: [None] and the empty
    string are false. *)
Definition truthy (output : option string) : option string :=
  match output with
  | Some path => if String.eqb path "" then None else Some path
  | None => None
  end.

(** The table of lines 105-112. *)
Definition report_table (simulations : Z) (noise bias entropy : R)
  : renderable :=
  Table "⚛️ Q-Drift Analysis Report"
    [("Metric", "cyan"); ("Value", "magenta")]%string
    [([Lit "Simulations"], [Int simulations]);
     ([Lit "Noise Level"], [Round (noise * 100) 2; Lit "%"]);
     ([Lit "Collapse Bias"], [Round bias 6]);
     ([Lit "Drift Entropy Score"], [Round entropy 6])].

(** [analyze(simulations, noise, seed, output, graph, ci_mode)],
    lines 62-158. *)
Definition analyze (simulations : Z) (noise : R) (seed : option Z)
  (output : option string) (graph ci_mode : bool) (w : world) : run :=
  (* lines 72-75 *)
  let w :=
    match seed with
    | Some s =>
        let w := random_seed s w in
        if negb ci_mode
        then console_print
               (Markup [Lit "[dim]⚙️ Deterministic mode enabled. Seed: ";
                        Int s; Lit "[/dim]"]) w
        else w
    | None => w
    end in
  (* lines 77-79 *)
  if (simulations <=? 0)%Z then
    {| final :=
         console_print
           (Markup [Lit "[bold red]❌ Simulations must be > 0[/bold red]"]) w;
       locals := None; exit_status := 1 |}
  (* lines 81-83 *)
  else if negb (Py.leb 0.0 noise && Py.leb noise 1.0) then
    {| final :=
         console_print
           (Markup
              [Lit "[bold red]❌ Noise must be between 0.0 and 1.0[/bold red]"])
           w;
       locals := None; exit_status := 1 |}
  else
    (* lines 85-89; the transient [console.status] spinner leaves nothing on
       the console *)
    let (results, w) :=
      if negb ci_mode then simulate noise simulations w
      else simulate noise simulations w in
    (* lines 91-96 *)
    let entropy := calculate_entropy results in
    let bias := calculate_collapse_bias results in
    let counts := Counter results in
    let state_0_count := get counts 0 0 in
    let state_1_count := get counts 1 0 in
    (* lines 98-101 *)
    let w :=
      if graph && negb ci_mode
      then console_print (Markup [Lit ""])
             (render_distribution_chart state_0_count state_1_count
                (console_print (Markup [Lit ""]) w))
      else w in
    (* lines 104-112 *)
    let w :=
      if negb ci_mode
      then console_print (report_table simulations noise bias entropy) w
      else w in
    (* lines 115-130 *)
    let '(status_msg, exit_code, w) := classify entropy ci_mode w in
    let fr :=
      {| results := results; entropy := entropy; bias := bias;
         state_0_count := state_0_count; state_1_count := state_1_count;
         status_msg := status_msg; exit_code := exit_code |} in
    (* lines 133-155 *)
    match truthy output with
    | Some path =>
        let data := report_data simulations noise seed fr in
        match open_error w path with
        | None =>
            let w := write_json path data w in
            let w :=
              if negb ci_mode
              then console_print
                     (Markup [Lit "[dim]💾 Report saved to: "; Lit path;
                              Lit "[/dim]"]) w
              else w in
            (* lines 157-158 *)
            {| final := w; locals := Some fr;
               exit_status := if negb (Z.eqb exit_code 0) then exit_code
                              else 0 |}
        | Some e =>
            {| final :=
                 console_print
                   (Markup [Lit "[bold red]❌ Error saving JSON: "; Lit e;
                            Lit "[/bold red]"]) w;
               locals := Some fr; exit_status := 1 |}
        end
    | None =>
        (* lines 157-158 *)
        {| final := w; locals := Some fr;
           exit_status := if negb (Z.eqb exit_code 0) then exit_code else 0 |}
    end.

End Process.

(** ** The generator and the classification on binary64 floats *)

Module Binary64.

(** [min(a, b)] and [max(a, b)] on floats: the first argument unless the
    second compares strictly below (above) it. *)
Definition py_min (a b : float) : float := if PrimFloat.ltb b a then b else a.

Definition py_max (a b : float) : float := if PrimFloat.ltb a b then b else a.

(** Lines 16-18 of [quantum_gate_simulation]. *)
Definition shifted_probability (noise_level : float) : float :=
  let base_probability := 0.9%float in
  let shifted_probability :=
    (base_probability * (1.0 - noise_level))%float in
  py_max 0.0%float (py_min 1.0%float shifted_probability).

(** Line 19 for a given draw. *)
Definition collapse (r shifted_probability : float) : Z :=
  if PrimFloat.ltb r shifted_probability then 1%Z else 0%Z.

(** [status_msg] and [exit_code] of lines 115-130. *)
Definition classify (entropy : float) : string * Z :=
  if PrimFloat.ltb 0.8%float entropy then
    ("CRITICAL: High structural fragility detected."%string, 1%Z)
  else if PrimFloat.ltb 0.4%float entropy then
    ("WARNING: Moderate drift detected."%string, 0%Z)
  else
    ("STABLE: System appears robust."%string, 0%Z).

End Binary64.

(** ** Vocabulary of the statements *)

(** The invariant of a counter: each key once, each count positive. *)
Definition counter_wf (c : counter) : Prop :=
  NoDup (map fst c) /\ Forall (fun kn => (0 < snd kn)%Z) c.

(** A sequence of outcomes: every element is 0 or 1. *)
Definition binary (s : list Z) : Prop := forall x, In x s -> x = 0%Z \/ x = 1%Z.

(** The term [p * math.log2(p)] that the loop subtracts for one count. *)
Definition plogp (total count : Z) : R :=
  Py.truediv count total * Py.log2 (Py.truediv count total).

(** The sum of a list of reals. *)
Definition Rsum (l : list R) : R := fold_right Rplus 0 l.

(** What a value with [count] occurrences adds to the entropy: nothing when
    the value does not occur. *)
Definition contribution (total count : Z) : R :=
  if (0 <? count)%Z then - plogp total count else 0.

(** The status tier as the specification words it: thresholds 0.8 and 0.4,
    strict, first match wins; with the exit code the tier asks for. *)
Definition tier (entropy : R) : string * Z :=
  if Rlt_dec 0.8 entropy
  then ("CRITICAL: High structural fragility detected."%string, 1%Z)
  else if Rlt_dec 0.4 entropy
       then ("WARNING: Moderate drift detected."%string, 0%Z)
       else ("STABLE: System appears robust."%string, 0%Z).

(** [data[key]] on a serialised dict. *)
Definition member (key : string) (j : json) : option json :=
  match j with
  | JObject members =>
      (fix find (ms : list (string * json)) : option json :=
         match ms with
         | [] => None
         | (k, v) :: ms' => if String.eqb k key then Some v else find ms'
         end) members
  | _ => None
  end.

(** Whether a piece of text is printed by [r]. *)
Definition mentions (needle : string) (r : renderable) : bool :=
  let inside (f : fragment) :=
    match f with
    | Lit s => match String.index 0 needle s with Some _ => true | None => false end
    | _ => false
    end in
  match r with
  | Markup t => existsb inside t
  | PanelFit body _ _ => existsb inside body
  | Table _ _ rows =>
      existsb (fun row => existsb inside (fst row) || existsb inside (snd row))
        rows
  end.

Section Vocabulary.
Context `{RandomSource}.

(** The state of the random source once lines 72-75 have run. *)
Definition seeded_rng (seed : option Z) (w : world) : rng_state :=
  match seed with Some s => rng_seed s | None => rng w end.

(** What lines 72-75 print. *)
Definition seed_notice (seed : option Z) (ci_mode : bool) : list renderable :=
  match seed with
  | Some s =>
      if ci_mode then []
      else [Markup [Lit "[dim]⚙️ Deterministic mode enabled. Seed: "; Int s;
                    Lit "[/dim]"]]
  | None => []
  end.

(** The local variables of a run that passes validation, from the noise,
    the number of trials and the state of the random source at the first
    draw. *)
Definition frame_of (noise : R) (simulations : Z) (s0 : rng_state) : frame :=
  let results := fst (comprehension noise (Z.to_nat simulations) s0) in
  let entropy := calculate_entropy results in
  {| results := results;
     entropy := entropy;
     bias := calculate_collapse_bias results;
     state_0_count := get (Counter results) 0 0;
     state_1_count := get (Counter results) 1 0;
     status_msg := fst (tier entropy);
     exit_code := snd (tier entropy) |}.

(** Two process states that differ at most in what the console shows. *)
Definition same_store (w w' : world) : Prop :=
  rng w = rng w' /\ files w = files w' /\ open_error w = open_error w'.

End Vocabulary.

(** ** A concrete random source *)

Lemma digit_range (s : Z) : 0 <= IZR (s mod 10) / 10 < 1.
Proof.
  pose proof (Z.mod_pos_bound s 10 eq_refl) as [Hlo Hhi].
  apply IZR_le in Hlo. apply IZR_lt in Hhi. lra.
Qed.

(** A random source to run the program on: the state is an integer,
    seeding installs the magnitude of the seed, a draw is the last decimal
    digit of the state over ten and moves the state on by seven. *)
Definition digit_source : RandomSource :=
  {| rng_state := Z;
     rng_seed := Z.abs;
     rng_random := fun s => (IZR (s mod 10) / 10, (s + 7)%Z);
     rng_random_range := digit_range |}.

(** A process with random source in state [s], nothing printed, no file,
    and every path writable. *)
Definition fresh (s : Z) : @world digit_source :=
  {| rng := s : @rng_state digit_source; console := [];
     files := fun _ => None; open_error := fun _ => None |}.

(** ** The rest of the module *)

(** Line 81 on binary64 floats: whether [0.0 <= noise <= 1.0] holds, that is
    whether [analyze] goes on to generate outcomes. *)
Definition noise_accepted_binary64 (noise : float) : bool :=
  PrimFloat.leb 0.0%float noise && PrimFloat.leb noise 1.0%float.


Section Commands.
Context `{RandomSource}.

(** [version()], lines 162-165. *)
Definition version (w : world) : world :=
  console_print (Markup [Lit "q-drift v0.3.0 ⚛️"]) w.

(** The console of [w'] is the console of [w] with lines added at the
    end. *)
Definition console_extends (w w' : world) : Prop :=
  exists printed, console w' = console w ++ printed.

(** The state of the random source after [n] calls of [random.random()]. *)
Fixpoint advance (n : nat) (s : rng_state) : rng_state :=
  match n with
  | O => s
  | S n' => advance n' (snd (rng_random s))
  end.

(** The values of the next [n] calls of [random.random()]. *)
Fixpoint draws (n : nat) (s : rng_state) : list R :=
  match n with
  | O => []
  | S n' => fst (rng_random s) :: draws n' (snd (rng_random s))
  end.

End Commands.


(** A process like [fresh s] in which no path can be opened for writing. *)
Definition read_only (s : Z) : @world digit_source :=
  {| rng := s : @rng_state digit_source; console := [];
     files := fun _ => None;
     open_error := fun _ => Some "Permission denied"%string |}.

(** * Properties *)

(** ** Comparisons and clamping *)

Lemma ltb_true_iff (a b : R) : Py.ltb a b = true <-> a < b.
Proof. unfold Py.ltb. destruct (Rlt_dec a b); split; intros; congruence || assumption. Qed.

Lemma ltb_false_iff (a b : R) : Py.ltb a b = false <-> b <= a.
Proof.
  unfold Py.ltb. destruct (Rlt_dec a b); split; intros; try congruence; lra.
Qed.

Lemma leb_true_iff (a b : R) : Py.leb a b = true <-> a <= b.
Proof. unfold Py.leb. destruct (Rle_dec a b); split; intros; congruence || assumption. Qed.

Lemma leb_false_iff (a b : R) : Py.leb a b = false <-> b < a.
Proof.
  unfold Py.leb. destruct (Rle_dec a b); split; intros; try congruence; lra.
Qed.

(** Rewrites a boolean comparison whose outcome follows by linear
    arithmetic from the context. *)
Ltac decide_cmp :=
  repeat match goal with
  | |- context [Py.ltb ?a ?b] =>
      first [ rewrite (proj2 (ltb_true_iff a b)) by lra
            | rewrite (proj2 (ltb_false_iff a b)) by lra ]
  | |- context [Py.leb ?a ?b] =>
      first [ rewrite (proj2 (leb_true_iff a b)) by lra
            | rewrite (proj2 (leb_false_iff a b)) by lra ]
  end.

Lemma py_min_Rmin (a b : R) : Py.min a b = Rmin a b.
Proof.
  unfold Py.min, Rmin, Py.ltb.
  destruct (Rlt_dec b a), (Rle_dec a b); lra.
Qed.

Lemma py_max_Rmax (a b : R) : Py.max a b = Rmax a b.
Proof.
  unfold Py.max, Rmax, Py.ltb.
  destruct (Rlt_dec a b), (Rle_dec a b); lra.
Qed.

Lemma shifted_probability_clamp (noise : R) :
  shifted_probability noise = Rmax 0 (Rmin 1 (0.9 * (1 - noise))).
Proof.
  unfold shifted_probability. rewrite py_min_Rmin, py_max_Rmax.
  replace 1.0 with 1 by lra. replace 0.0 with 0 by lra. reflexivity.
Qed.

Lemma shifted_probability_range (noise : R) :
  0 <= shifted_probability noise <= 1.
Proof.
  rewrite shifted_probability_clamp.
  unfold Rmax, Rmin.
  repeat match goal with |- context [Rle_dec ?a ?b] => destruct (Rle_dec a b) end;
    lra.
Qed.

Lemma shifted_probability_valid (noise : R) :
  0 <= noise <= 1 -> shifted_probability noise = 0.9 * (1.0 - noise).
Proof.
  intros Hn. unfold shifted_probability, Py.max, Py.min.
  decide_cmp.
  destruct (Rlt_dec 0.0 (0.9 * (1.0 - noise))) as [Hpos | Hnpos].
  - now rewrite (proj2 (ltb_true_iff _ _) Hpos).
  - rewrite (proj2 (ltb_false_iff 0.0 (0.9 * (1.0 - noise)))) by lra. lra.
Qed.

Lemma collapse_binary (r p : R) : collapse r p = 0%Z \/ collapse r p = 1%Z.
Proof. unfold collapse. destruct (Py.ltb r p); auto. Qed.

Lemma collapse_one_iff (r p : R) : collapse r p = 1%Z <-> r < p.
Proof.
  unfold collapse. rewrite <- ltb_true_iff.
  destruct (Py.ltb r p); split; intros; congruence.
Qed.

(** No float that is at least 0 compares below 0. *)
Lemma binary64_below_zero (draw : float) :
  PrimFloat.leb 0%float draw = true ->
  Binary64.collapse draw (Binary64.shifted_probability 1%float) = 0%Z.
Proof.
  intros Hdraw. unfold Binary64.collapse.
  change (Binary64.shifted_probability 1%float) with 0%float.
  rewrite leb_spec in Hdraw. rewrite ltb_spec.
  change (Prim2SF 0%float) with (S754_zero false) in *.
  destruct (Prim2SF draw) as [sgn | [|] | | [|] m e];
    try reflexivity; discriminate.
Qed.

Section Generator.
Context `{RandomSource}.

Lemma quantum_gate_simulation_unfold (noise : R) (s : rng_state) :
  quantum_gate_simulation noise s =
  (collapse (fst (rng_random s)) (shifted_probability noise),
   snd (rng_random s)).
Proof.
  unfold quantum_gate_simulation. now destruct (rng_random s).
Qed.

(** C1. [quantum_gate_simulation] makes one draw [r] from the random source
    and returns 1 when [r] is below the base probability 0.9 scaled by
    [1 - noise] and clamped to [[0, 1]], else 0; so the result is 0 or 1 for
    every noise.  At noise 1 the probability is 0 and the result is 0
    whatever the draw; at noise 0 the probability is 0.9.  The two
    probabilities and the result at noise 1 are the same on binary64
    floats. *)
Theorem quantum_gate_simulation_spec (noise : R) (s : rng_state) :
  let r := fst (rng_random s) in
  let effectiveProbability := Rmax 0 (Rmin 1 (0.9 * (1 - noise))) in
  shifted_probability noise = effectiveProbability
  /\ snd (quantum_gate_simulation noise s) = snd (rng_random s)
  /\ (fst (quantum_gate_simulation noise s) = 0%Z
      \/ fst (quantum_gate_simulation noise s) = 1%Z)
  /\ (fst (quantum_gate_simulation noise s) = 1%Z
      <-> r < effectiveProbability)
  /\ (fst (quantum_gate_simulation noise s) = 0%Z
      <-> effectiveProbability <= r)
  /\ shifted_probability 1 = 0
  /\ fst (quantum_gate_simulation 1 s) = 0%Z
  /\ shifted_probability 0 = 0.9
  /\ Binary64.shifted_probability 1%float = 0%float
  /\ (forall draw : float,
        PrimFloat.leb 0%float draw = true ->
        Binary64.collapse draw (Binary64.shifted_probability 1%float) = 0%Z)
  /\ Binary64.shifted_probability 0%float = 0.9%float.
Proof.
  intros r p. subst r p.
  assert (B1 : Binary64.shifted_probability 1%float = 0%float)
    by reflexivity.
  assert (B0 : Binary64.shifted_probability 0%float = 0.9%float)
    by reflexivity.
  pose proof binary64_below_zero as Bdraw.
  rewrite !quantum_gate_simulation_unfold, <- shifted_probability_clamp.
  cbn [fst snd].
  assert (H1 : shifted_probability 1 = 0)
    by (rewrite shifted_probability_valid; lra).
  assert (H0 : shifted_probability 0 = 0.9)
    by (rewrite shifted_probability_valid; lra).
  repeat split; auto.
  - apply collapse_binary.
  - now apply collapse_one_iff.
  - now apply collapse_one_iff.
  - intros Hz. destruct (Rlt_dec (fst (rng_random s)) (shifted_probability noise)) as [Hlt|Hge].
    + apply collapse_one_iff in Hlt. congruence.
    + lra.
  - intros Hge. destruct (collapse_binary (fst (rng_random s)) (shifted_probability noise)) as [E|E]; auto.
    apply collapse_one_iff in E. lra.
  - rewrite H1.
    destruct (collapse_binary (fst (rng_random s)) 0) as [E|E]; auto.
    apply collapse_one_iff in E. pose proof (rng_random_range s). lra.
Qed.

(** C9. For a noise in [[0, 1]] the product [0.9 * (1.0 - noise)] is already
    in [[0, 1]], the clamp of line 18 returns it unchanged, and the generator
    gives the result it would give without the clamp. *)
Theorem clamp_redundant (noise : R) (s : rng_state) :
  0.0 <= noise <= 1.0 ->
  0.0 <= 0.9 * (1.0 - noise) <= 1.0
  /\ Py.max 0.0 (Py.min 1.0 (0.9 * (1.0 - noise))) = 0.9 * (1.0 - noise)
  /\ shifted_probability noise = 0.9 * (1.0 - noise)
  /\ quantum_gate_simulation noise s =
     (collapse (fst (rng_random s)) (0.9 * (1.0 - noise)),
      snd (rng_random s)).
Proof.
  intros Hn.
  assert (E : shifted_probability noise = 0.9 * (1.0 - noise))
    by (apply shifted_probability_valid; lra).
  split; [lra|]. split; [exact E|]. split; [exact E|].
  now rewrite quantum_gate_simulation_unfold, E.
Qed.

End Generator.

(** ** Counters *)

Lemma count_nonneg (l : list Z) (x : Z) : (0 <= Py.count l x)%Z.
Proof. induction l as [|y l IH]; simpl; [lia | destruct (Z.eqb y x); lia]. Qed.

Lemma count_le_len (l : list Z) (x : Z) : (Py.count l x <= Py.len l)%Z.
Proof.
  unfold Py.len. induction l as [|y l IH]; cbn [Py.count List.length].
  - lia.
  - rewrite Nat2Z.inj_succ. destruct (Z.eqb y x); lia.
Qed.

Lemma count_pos_In (l : list Z) (x : Z) : (0 < Py.count l x)%Z -> In x l.
Proof.
  induction l as [|y l IH]; simpl; [lia|].
  destruct (Z.eqb_spec y x); auto.
Qed.

Lemma In_count_pos (l : list Z) (x : Z) : In x l -> (0 < Py.count l x)%Z.
Proof.
  induction l as [|y l IH]; simpl; [tauto|].
  intros [->|Hin].
  - rewrite Z.eqb_refl. pose proof (count_nonneg l x). lia.
  - specialize (IH Hin). destruct (Z.eqb y x); lia.
Qed.

Lemma count_Permutation (l l' : list Z) (x : Z) :
  Permutation l l' -> Py.count l x = Py.count l' x.
Proof.
  induction 1; simpl; try lia.
Qed.

Lemma len_Permutation {A : Type} (l l' : list A) :
  Permutation l l' -> Py.len l = Py.len l'.
Proof. intros HP. unfold Py.len. now rewrite (Permutation_length HP). Qed.

Lemma len_zero_iff {A : Type} (l : list A) : Py.len l = 0%Z <-> l = [].
Proof.
  unfold Py.len. destruct l; simpl; split; intros; try reflexivity; try lia.
  discriminate.
Qed.

Lemma get_counter_incr (k : Z) (c : counter) (k' : Z) :
  get (counter_incr k c) k' 0 =
  (get c k' 0 + (if Z.eqb k k' then 1 else 0))%Z.
Proof.
  induction c as [|[k0 n] c IH]; simpl.
  - destruct (Z.eqb_spec k k'); lia.
  - destruct (Z.eqb_spec k0 k) as [->|Hne]; simpl.
    + destruct (Z.eqb_spec k k'); lia.
    + destruct (Z.eqb_spec k0 k') as [->|Hne'].
      * destruct (Z.eqb_spec k k'); [congruence | lia].
      * apply IH.
Qed.

Lemma get_fold_incr (s : list Z) (c : counter) (k : Z) :
  get (fold_left (fun c k => counter_incr k c) s c) k 0 =
  (get c k 0 + Py.count s k)%Z.
Proof.
  revert c. induction s as [|x s IH]; intros c; simpl.
  - lia.
  - rewrite IH, get_counter_incr. lia.
Qed.

(** [counts.get(k, 0)] of a [Counter] is [states.count(k)]. *)
Lemma get_Counter (s : list Z) (k : Z) : get (Counter s) k 0 = Py.count s k.
Proof. unfold Counter. now rewrite get_fold_incr. Qed.

Lemma keys_counter_incr (k : Z) (c : counter) (k' : Z) :
  In k' (map fst (counter_incr k c)) <-> k' = k \/ In k' (map fst c).
Proof.
  induction c as [|[k0 n] c IH]; simpl.
  - intuition.
  - destruct (Z.eqb_spec k0 k) as [->|Hne]; simpl.
    + intuition.
    + rewrite IH. intuition.
Qed.

Lemma counter_incr_wf (k : Z) (c : counter) :
  counter_wf c -> counter_wf (counter_incr k c).
Proof.
  unfold counter_wf. induction c as [|[k0 n] c IH]; simpl; intros [Hnd Hpos].
  - split; repeat constructor; simpl; auto; lia.
  - inversion Hnd as [|? ? Hnotin Hnd']; subst.
    inversion Hpos as [|? ? Hn Hpos']; subst. simpl in Hn.
    destruct (Z.eqb_spec k0 k) as [->|Hne]; simpl.
    + split; constructor; simpl; auto; lia.
    + destruct (IH (conj Hnd' Hpos')) as [IH1 IH2].
      split; constructor; simpl; auto.
      rewrite keys_counter_incr. intros [E|Hin]; auto.
Qed.

Lemma fold_incr_wf (s : list Z) (c : counter) :
  counter_wf c -> counter_wf (fold_left (fun c k => counter_incr k c) s c).
Proof.
  revert c. induction s as [|x s IH]; intros c Hc; simpl; auto.
  apply IH, counter_incr_wf, Hc.
Qed.

Lemma Counter_wf (s : list Z) : counter_wf (Counter s).
Proof. apply fold_incr_wf. split; constructor. Qed.

(** Every count of a [Counter] is positive, so [math.log2] is never called
    outside its domain. *)
Lemma Counter_values_positive (s : list Z) :
  Forall (fun n => (0 < n)%Z) (values (Counter s)).
Proof.
  destruct (Counter_wf s) as [_ Hpos]. unfold values.
  induction Hpos; simpl; constructor; auto.
Qed.

Lemma In_get (c : counter) (k n : Z) :
  NoDup (map fst c) -> In (k, n) c -> get c k 0 = n.
Proof.
  induction c as [|[k0 n0] c IH]; simpl; intros Hnd Hin; [tauto|].
  inversion Hnd as [|? ? Hnotin Hnd']; subst.
  destruct Hin as [E|Hin].
  - inversion E; subst. now rewrite Z.eqb_refl.
  - destruct (Z.eqb_spec k0 k) as [->|Hne]; auto.
    exfalso. apply Hnotin. apply (in_map fst) in Hin. exact Hin.
Qed.

Lemma get_In (c : counter) (k n : Z) :
  get c k 0 = n -> n <> 0%Z -> In (k, n) c.
Proof.
  induction c as [|[k0 n0] c IH]; simpl; intros Hget Hn; [congruence|].
  destruct (Z.eqb_spec k0 k) as [->|Hne]; [left; congruence | right; auto].
Qed.

Lemma In_Counter (s : list Z) (k n : Z) :
  In (k, n) (Counter s) <-> n = Py.count s k /\ (0 < n)%Z.
Proof.
  destruct (Counter_wf s) as [Hnd Hpos]. split.
  - intros Hin. split.
    + rewrite <- get_Counter. symmetry. now apply In_get.
    + rewrite Forall_forall in Hpos. apply (Hpos _ Hin).
  - intros [-> Hn]. apply get_In; [apply get_Counter | lia].
Qed.

Lemma NoDup_Counter (s : list Z) : NoDup (Counter s).
Proof. destruct (Counter_wf s) as [Hnd _]. now apply NoDup_map_inv in Hnd. Qed.

(** Permuting the list permutes the entries of its [Counter]. *)
Lemma Counter_Permutation (s s' : list Z) :
  Permutation s s' -> Permutation (Counter s) (Counter s').
Proof.
  intros HP. apply NoDup_Permutation; try apply NoDup_Counter.
  intros [k n]. rewrite !In_Counter, (count_Permutation s s' k HP). tauto.
Qed.

Lemma binary_count_len (s : list Z) :
  binary s -> (Py.count s 0 + Py.count s 1 = Py.len s)%Z.
Proof.
  unfold Py.len. induction s as [|x s IH]; intros Hb; [reflexivity|].
  assert (Hs : binary s) by (intros y Hy; apply Hb; now right).
  specialize (IH Hs). cbn [Py.count List.length].
  rewrite Nat2Z.inj_succ.
  destruct (Hb x (or_introl eq_refl)) as [->| ->];
    cbn [Z.eqb Pos.eqb]; lia.
Qed.

(** The [Counter] of a binary sequence holds the entries for 0 and 1 that
    have a positive count, in some order. *)
Lemma Counter_binary (s : list Z) :
  binary s ->
  Permutation (Counter s)
    (filter (fun kn => (0 <? snd kn)%Z)
       [(0%Z, Py.count s 0); (1%Z, Py.count s 1)]).
Proof.
  intros Hb. apply NoDup_Permutation.
  - apply NoDup_Counter.
  - apply NoDup_filter. repeat constructor; simpl; intuition congruence.
  - intros [k n]. rewrite In_Counter, filter_In. simpl. split.
    + intros [-> Hn]. split; [|now apply Z.ltb_lt].
      destruct (Hb k (count_pos_In _ _ Hn)) as [->| ->]; auto.
    + intros [[E|[E|[]]] Hn]; inversion E; subst; apply Z.ltb_lt in Hn; auto.
Qed.

(** ** Entropy as a sum over the counter *)

Lemma fold_entropy_step (total : Z) (l : list Z) (e : R) :
  fold_left (entropy_step total) l e = e - Rsum (map (plogp total) l).
Proof.
  revert e. induction l as [|c l IH]; intros e; simpl.
  - lra.
  - rewrite IH. unfold entropy_step, plogp. lra.
Qed.

Lemma Rsum_Permutation (l l' : list R) :
  Permutation l l' -> Rsum l = Rsum l'.
Proof. induction 1; simpl; lra. Qed.

Lemma calculate_entropy_sum (s : list Z) :
  calculate_entropy s =
  - Rsum (map (plogp (Py.len s)) (values (Counter s))).
Proof.
  unfold calculate_entropy.
  destruct (Z.eqb_spec (Py.len s) 0) as [E|_].
  - apply len_zero_iff in E. subst s. simpl. lra.
  - rewrite fold_entropy_step. lra.
Qed.

Lemma calculate_entropy_binary (s : list Z) :
  binary s ->
  calculate_entropy s =
  contribution (Py.len s) (Py.count s 0)
  + contribution (Py.len s) (Py.count s 1).
Proof.
  intros Hb. rewrite calculate_entropy_sum.
  pose proof (Counter_binary s Hb) as HP.
  apply (Permutation_map snd), (Permutation_map (plogp (Py.len s))) in HP.
  fold (values (Counter s)) in HP.
  rewrite (Rsum_Permutation _ _ HP). unfold contribution. simpl.
  destruct (0 <? Py.count s 0)%Z, (0 <? Py.count s 1)%Z; simpl; lra.
Qed.

(** ** Logarithms *)

Lemma ln_2_pos : 0 < ln 2.
Proof. pose proof ln_lt_2. lra. Qed.

Lemma log2_1 : Py.log2 1 = 0.
Proof. unfold Py.log2. rewrite ln_1. pose proof ln_2_pos. field. lra. Qed.

Lemma log2_half : Py.log2 (1 / 2) = -1.
Proof.
  unfold Py.log2. replace (1 / 2) with (/ 2) by lra.
  rewrite ln_Rinv by lra. pose proof ln_2_pos. field. lra.
Qed.

Lemma ln_le_minus_1 (y : R) : 0 < y -> ln y <= y - 1.
Proof.
  intros Hy. pose proof (exp_ineq1_le (ln y)) as Hexp.
  rewrite exp_ln in Hexp by assumption. lra.
Qed.

Lemma ln_nonpos (p : R) : 0 < p <= 1 -> ln p <= 0.
Proof. intros [Hp Hp1]. pose proof (ln_le_minus_1 p Hp). lra. Qed.

Lemma plnp_bound (p : R) : 0 < p -> - (p * ln p) <= p * ln 2 + / 2 - p.
Proof.
  intros Hp.
  assert (H2p : 0 < / (2 * p)) by (apply Rinv_0_lt_compat; lra).
  pose proof (ln_le_minus_1 _ H2p) as Hln.
  rewrite ln_Rinv, ln_mult in Hln by lra.
  apply (Rmult_le_compat_l p) in Hln; [|lra].
  replace (p * (/ (2 * p) - 1)) with (/ 2 - p) in Hln by (field; lra).
  lra.
Qed.

(** The entropy of a two-point distribution is at most one bit. *)
Lemma binary_entropy_le_1 (p q : R) :
  0 < p -> 0 < q -> p + q = 1 ->
  - (p * Py.log2 p) + - (q * Py.log2 q) <= 1.
Proof.
  intros Hp Hq Hpq. unfold Py.log2. pose proof ln_2_pos as H2.
  pose proof (plnp_bound p Hp) as Bp. pose proof (plnp_bound q Hq) as Bq.
  replace (- (p * (ln p / ln 2)) + - (q * (ln q / ln 2)))
    with ((- (p * ln p) + - (q * ln q)) / ln 2) by (field; lra).
  apply (Rmult_le_reg_r (ln 2)); [assumption|].
  replace ((- (p * ln p) + - (q * ln q)) / ln 2 * ln 2)
    with (- (p * ln p) + - (q * ln q)) by (field; lra).
  replace (p * ln 2 + / 2 - p + (q * ln 2 + / 2 - q)) with (ln 2) in *; nra.
Qed.

Lemma plogp_nonpos (p : R) : 0 < p <= 1 -> p * Py.log2 p <= 0.
Proof.
  intros Hp. pose proof (ln_nonpos p Hp) as Hln. pose proof ln_2_pos as H2.
  unfold Py.log2.
  assert (ln p / ln 2 <= 0).
  { apply (Rmult_le_reg_r (ln 2)); [assumption|].
    replace (ln p / ln 2 * ln 2) with (ln p) by (field; lra). lra. }
  nra.
Qed.

Lemma truediv_range (c total : Z) :
  (0 <= c <= total)%Z -> (0 < total)%Z -> 0 <= Py.truediv c total <= 1.
Proof.
  intros [Hc Hct] Ht. unfold Py.truediv.
  apply IZR_le in Hc, Hct. apply IZR_lt in Ht.
  split.
  - apply Rmult_le_pos; [assumption | left; now apply Rinv_0_lt_compat].
  - apply (Rmult_le_reg_r (IZR total)); [assumption|].
    replace (IZR c / IZR total * IZR total) with (IZR c) by (field; lra). lra.
Qed.

Lemma truediv_pos (c total : Z) :
  (0 < c)%Z -> (0 < total)%Z -> 0 < Py.truediv c total.
Proof.
  intros Hc Ht. unfold Py.truediv. apply IZR_lt in Hc, Ht.
  apply Rmult_lt_0_compat; [assumption | now apply Rinv_0_lt_compat].
Qed.

Lemma truediv_self (n : Z) : (0 < n)%Z -> Py.truediv n n = 1.
Proof. intros Hn. unfold Py.truediv. apply IZR_lt in Hn. field. lra. Qed.

Lemma truediv_sum (a b total : Z) :
  (a + b = total)%Z -> (0 < total)%Z ->
  Py.truediv a total + Py.truediv b total = 1.
Proof.
  intros <- Ht. unfold Py.truediv. apply IZR_lt in Ht.
  rewrite plus_IZR in *. field. lra.
Qed.

Lemma len_pos {A : Type} (s : list A) : s <> [] -> (0 < Py.len s)%Z.
Proof.
  intros Hs. pose proof (len_zero_iff s). unfold Py.len in *.
  destruct s; [congruence|]. simpl List.length. lia.
Qed.

(** Range of the two metrics on sequences of outcomes. *)
Lemma calculate_entropy_range (s : list Z) :
  binary s -> 0 <= calculate_entropy s <= 1.
Proof.
  intros Hb. destruct s as [|x0 s0] eqn:Es.
  { unfold calculate_entropy. simpl. lra. }
  rewrite <- Es in *. assert (Hne : s <> []) by (subst; discriminate).
  clear Es. rewrite (calculate_entropy_binary s Hb).
  pose proof (len_pos s Hne) as Ht.
  pose proof (binary_count_len s Hb) as Hsum.
  pose proof (count_nonneg s 0) as H0. pose proof (count_nonneg s 1) as H1.
  unfold contribution, plogp.
  destruct (Z.ltb_spec 0 (Py.count s 0)) as [P0|Z0];
    destruct (Z.ltb_spec 0 (Py.count s 1)) as [P1|Z1]; try lia.
  - pose proof (truediv_pos _ _ P0 Ht). pose proof (truediv_pos _ _ P1 Ht).
    pose proof (truediv_sum _ _ _ Hsum Ht) as Hpq.
    pose proof (plogp_nonpos (Py.truediv (Py.count s 0) (Py.len s))).
    pose proof (plogp_nonpos (Py.truediv (Py.count s 1) (Py.len s))).
    pose proof (binary_entropy_le_1 _ _ H H2 Hpq).
    lra.
  - replace (Py.count s 0) with (Py.len s) by lia.
    rewrite truediv_self, log2_1 by assumption. lra.
  - replace (Py.count s 1) with (Py.len s) by lia.
    rewrite truediv_self, log2_1 by assumption. lra.
Qed.

Lemma calculate_collapse_bias_range (s : list Z) :
  0 <= calculate_collapse_bias s <= 0.5.
Proof.
  unfold calculate_collapse_bias.
  destruct (Z.eqb_spec (Py.len s) 0) as [E|Hne]; [lra|].
  assert (Ht : (0 < Py.len s)%Z) by (unfold Py.len in *; lia).
  pose proof (truediv_range (Py.count s 1) (Py.len s)
                (conj (count_nonneg s 1) (count_le_len s 1)) Ht) as Hr.
  unfold Py.abs. split; [apply Rabs_pos|].
  apply Rabs_le. lra.
Qed.

(** ** The metrics on synthetic sequences *)

Lemma count_notin (l : list Z) (x : Z) : ~ In x l -> Py.count l x = 0%Z.
Proof.
  intros Hnotin. pose proof (count_nonneg l x).
  destruct (Z.ltb_spec 0 (Py.count l x)) as [Hpos|]; [|lia].
  exfalso. apply Hnotin. now apply count_pos_In.
Qed.

Lemma calculate_collapse_bias_ratio (s : list Z) :
  s <> [] ->
  calculate_collapse_bias s =
  Rabs (Py.truediv (Py.count s 1) (Py.len s) - 0.5).
Proof.
  intros Hs. unfold calculate_collapse_bias.
  pose proof (len_pos s Hs).
  destruct (Z.eqb_spec (Py.len s) 0); [lia | reflexivity].
Qed.

Lemma metrics_balanced (s : list Z) :
  s <> [] -> binary s -> Py.count s 0 = Py.count s 1 ->
  calculate_entropy s = 1 /\ calculate_collapse_bias s = 0.
Proof.
  intros Hs Hb Heq.
  pose proof (len_pos s Hs) as Ht.
  pose proof (binary_count_len s Hb) as Hsum.
  assert (Hc : (0 < Py.count s 1)%Z) by lia.
  assert (Hhalf : Py.truediv (Py.count s 1) (Py.len s) = 1 / 2).
  { unfold Py.truediv. replace (Py.len s) with (2 * Py.count s 1)%Z by lia.
    rewrite mult_IZR. apply IZR_lt in Hc. field. lra. }
  split.
  - rewrite (calculate_entropy_binary s Hb), Heq.
    unfold contribution, plogp.
    rewrite (proj2 (Z.ltb_lt _ _) Hc), Hhalf, log2_half. lra.
  - rewrite (calculate_collapse_bias_ratio s Hs), Hhalf.
    replace (1 / 2 - 0.5) with 0 by lra. apply Rabs_R0.
Qed.

Lemma metrics_constant (s : list Z) (b : Z) :
  s <> [] -> (b = 0%Z \/ b = 1%Z) -> (forall x, In x s -> x = b) ->
  calculate_entropy s = 0 /\ calculate_collapse_bias s = 0.5.
Proof.
  intros Hs Hb Hall.
  assert (Hbin : binary s) by (intros x Hx; rewrite (Hall x Hx); exact Hb).
  pose proof (len_pos s Hs) as Ht.
  pose proof (binary_count_len s Hbin) as Hsum.
  rewrite (calculate_entropy_binary s Hbin),
    (calculate_collapse_bias_ratio s Hs).
  unfold contribution, plogp.
  destruct Hb as [-> | ->].
  - assert (H1 : Py.count s 1 = 0%Z).
    { apply count_notin. intros Hin. apply Hall in Hin. discriminate. }
    rewrite H1 in *. replace (Py.count s 0) with (Py.len s) by lia.
    rewrite (proj2 (Z.ltb_lt _ _) Ht), truediv_self, log2_1 by assumption.
    split; [simpl; lra|].
    unfold Py.truediv, Rabs.
    destruct (Rcase_abs (0 / IZR (Py.len s) - 0.5)); lra.
  - assert (H0 : Py.count s 0 = 0%Z).
    { apply count_notin. intros Hin. apply Hall in Hin. discriminate. }
    rewrite H0 in *. replace (Py.count s 1) with (Py.len s) by lia.
    rewrite (proj2 (Z.ltb_lt _ _) Ht), truediv_self, log2_1 by assumption.
    split; [simpl; lra|].
    unfold Rabs. destruct (Rcase_abs (1 - 0.5)); lra.
Qed.

(** C2. On a non-empty sequence of outcomes with as many 0 as 1 the entropy
    is 1.0 and the bias 0.0; on a non-empty sequence of 0 only, or of 1
    only, the entropy is 0.0 and the bias 0.5. *)
Theorem balanced_and_degenerate (s : list Z) :
  s <> [] ->
  (binary s -> Py.count s 0 = Py.count s 1 ->
   calculate_entropy s = 1.0 /\ calculate_collapse_bias s = 0.0)
  /\ ((forall x, In x s -> x = 0%Z) ->
      calculate_entropy s = 0.0 /\ calculate_collapse_bias s = 0.5)
  /\ ((forall x, In x s -> x = 1%Z) ->
      calculate_entropy s = 0.0 /\ calculate_collapse_bias s = 0.5).
Proof.
  intros Hs. replace 1.0 with 1 by lra. replace 0.0 with 0 by lra.
  split; [|split].
  - intros Hb Heq. now apply metrics_balanced.
  - intros Hall. apply (metrics_constant s 0); auto.
  - intros Hall. apply (metrics_constant s 1); auto.
Qed.

(** The balanced sequence [[0, 1, 0, 1]] of the specification. *)
Lemma balanced_and_degenerate_witness :
  (calculate_entropy [0; 1; 0; 1]%Z = 1.0
   /\ calculate_collapse_bias [0; 1; 0; 1]%Z = 0.0)
  /\ (calculate_entropy [0; 0; 0]%Z = 0.0
      /\ calculate_collapse_bias [0; 0; 0]%Z = 0.5)
  /\ (calculate_entropy [1; 1]%Z = 0.0
      /\ calculate_collapse_bias [1; 1]%Z = 0.5).
Proof.
  split; [|split].
  - refine (proj1 (balanced_and_degenerate [0; 1; 0; 1]%Z _) _ _).
    + discriminate.
    + intros x Hx. simpl in Hx. intuition.
    + reflexivity.
  - refine (proj1 (proj2 (balanced_and_degenerate [0; 0; 0]%Z _)) _).
    + discriminate.
    + intros x Hx. simpl in Hx. intuition congruence.
  - refine (proj2 (proj2 (balanced_and_degenerate [1; 1]%Z _)) _).
    + discriminate.
    + intros x Hx. simpl in Hx. intuition congruence.
Defined.

(** C8. Entropy and bias do not depend on the order of the outcomes: they
    agree on a list and on each of its permutations. *)
Theorem metrics_order_independent (s s' : list Z) :
  Permutation s s' ->
  calculate_entropy s = calculate_entropy s'
  /\ calculate_collapse_bias s = calculate_collapse_bias s'.
Proof.
  intros HP. split.
  - rewrite !calculate_entropy_sum, (len_Permutation s s' HP).
    f_equal. apply Rsum_Permutation, Permutation_map. unfold values.
    apply Permutation_map, Counter_Permutation, HP.
  - unfold calculate_collapse_bias.
    now rewrite (len_Permutation s s' HP), (count_Permutation s s' 1 HP).
Qed.

Lemma metrics_order_independent_witness :
  calculate_entropy [1; 0; 0]%Z = calculate_entropy [0; 1; 0]%Z
  /\ calculate_collapse_bias [1; 0; 0]%Z = calculate_collapse_bias [0; 1; 0]%Z.
Proof.
  apply (metrics_order_independent [1; 0; 0]%Z [0; 1; 0]%Z).
  apply perm_swap.
Defined.

(** ** The run *)

Section Run.
Context `{RandomSource}.

Lemma same_store_refl (w : world) : same_store w w.
Proof. repeat split. Qed.

Lemma same_store_trans (w1 w2 w3 : world) :
  same_store w1 w2 -> same_store w2 w3 -> same_store w1 w3.
Proof. unfold same_store. intuition congruence. Qed.

Lemma console_print_store (r : renderable) (w : world) :
  same_store w (console_print r w).
Proof. repeat split. Qed.

Lemma render_distribution_chart_store (c0 c1 : Z) (w : world) :
  same_store w (render_distribution_chart c0 c1 w).
Proof.
  unfold render_distribution_chart.
  destruct (c0 + c1 =? 0)%Z; repeat split.
Qed.

Lemma classify_tier (e : R) (ci_mode : bool) (w : world) :
  fst (classify e ci_mode w) = tier e.
Proof.
  unfold classify, tier, Py.ltb.
  destruct (Rlt_dec 0.8 e); [reflexivity|].
  destruct (Rlt_dec 0.4 e); reflexivity.
Qed.

Lemma classify_store (e : R) (ci_mode : bool) (w : world) :
  same_store w (snd (classify e ci_mode w)).
Proof.
  unfold classify.
  destruct (Py.ltb 0.8 e); [|destruct (Py.ltb 0.4 e)];
    destruct ci_mode; repeat split.
Qed.

Lemma comprehension_length (noise : R) (n : nat) (s : rng_state) :
  List.length (fst (comprehension noise n s)) = n.
Proof.
  revert s. induction n as [|n IH]; intros s; simpl; [reflexivity|].
  destruct (quantum_gate_simulation noise s) as [x s1].
  specialize (IH s1). destruct (comprehension noise n s1) as [xs s2].
  simpl in *. now rewrite IH.
Qed.

Lemma comprehension_binary (noise : R) (n : nat) (s : rng_state) :
  binary (fst (comprehension noise n s)).
Proof.
  revert s. induction n as [|n IH]; intros s; simpl.
  - intros x [].
  - rewrite quantum_gate_simulation_unfold.
    specialize (IH (snd (rng_random s))).
    destruct (comprehension noise n (snd (rng_random s))) as [xs s2].
    simpl in *. intros x [<-|Hx]; [apply collapse_binary | now apply IH].
Qed.

Lemma simulate_results (noise : R) (simulations : Z) (w : world) :
  fst (simulate noise simulations w) =
  fst (comprehension noise (Z.to_nat simulations) (rng w)).
Proof.
  unfold simulate.
  now destruct (comprehension noise (Z.to_nat simulations) (rng w)).
Qed.

Lemma simulate_world (noise : R) (simulations : Z) (w : world) :
  let w' := snd (simulate noise simulations w) in
  rng w' = snd (comprehension noise (Z.to_nat simulations) (rng w))
  /\ console w' = console w
  /\ files w' = files w
  /\ open_error w' = open_error w.
Proof.
  unfold simulate.
  destruct (comprehension noise (Z.to_nat simulations) (rng w)).
  repeat split.
Qed.

(** A run that fails validation: what it leaves behind. *)
Lemma analyze_rejects (simulations : Z) (noise : R) (seed : option Z)
  (output : option string) (graph ci_mode : bool) (w : world) :
  (simulations <= 0)%Z \/ ~ (0 <= noise <= 1) ->
  let r := analyze simulations noise seed output graph ci_mode w in
  let message :=
    if (simulations <=? 0)%Z
    then "[bold red]❌ Simulations must be > 0[/bold red]"%string
    else "[bold red]❌ Noise must be between 0.0 and 1.0[/bold red]"%string in
  exit_status r = 1%Z
  /\ locals r = None
  /\ rng (final r) = seeded_rng seed w
  /\ files (final r) = files w
  /\ open_error (final r) = open_error w
  /\ console (final r) =
     console w ++ seed_notice seed ci_mode ++ [Markup [Lit message]].
Proof.
  intros Hbad. cbv zeta. unfold analyze.
  destruct (Z.leb_spec simulations 0) as [Hs|Hs].
  - destruct seed as [s|], ci_mode; simpl; repeat split;
      rewrite <- ?app_assoc; reflexivity.
  - destruct Hbad as [Hbad|Hbad]; [lia|].
    assert (E : negb (Py.leb 0.0 noise && Py.leb noise 1.0) = true).
    { apply negb_true_iff, andb_false_iff.
      rewrite !leb_false_iff.
      destruct (Rle_dec 0 noise); [|left; lra].
      destruct (Rle_dec noise 1); [tauto | right; lra]. }
    rewrite E.
    destruct seed as [s|], ci_mode; simpl; repeat split;
      rewrite <- ?app_assoc; reflexivity.
Qed.

Lemma exit_code_raised (code : Z) :
  (if negb (code =? 0)%Z then code else 0%Z) = code.
Proof. destruct (Z.eqb_spec code 0); simpl; congruence. Qed.

(** A run that passes validation: its local variables, and what it leaves
    behind. *)
Lemma analyze_accepts (simulations : Z) (noise : R) (seed : option Z)
  (output : option string) (graph ci_mode : bool) (w : world) :
  (0 < simulations)%Z -> 0 <= noise <= 1 ->
  let r := analyze simulations noise seed output graph ci_mode w in
  let fr := frame_of noise simulations (seeded_rng seed w) in
  locals r = Some fr
  /\ rng (final r) =
     snd (comprehension noise (Z.to_nat simulations) (seeded_rng seed w))
  /\ open_error (final r) = open_error w
  /\ match truthy output with
     | Some path =>
         match open_error w path with
         | None =>
             exit_status r = exit_code fr
             /\ files (final r) =
                (fun p => if String.eqb p path
                          then Some (report_data simulations noise seed fr)
                          else files w p)
         | Some e =>
             exit_status r = 1%Z
             /\ files (final r) = files w
             /\ exists printed,
                 console (final r) =
                 printed ++ [Markup [Lit "[bold red]❌ Error saving JSON: ";
                                     Lit e; Lit "[/bold red]"]]
         end
     | None => exit_status r = exit_code fr /\ files (final r) = files w
     end.
Proof.
  intros Hs Hn. cbv zeta. unfold analyze.
  destruct (Z.leb_spec simulations 0) as [Hs'|_]; [lia|].
  assert (E : negb (Py.leb 0.0 noise && Py.leb noise 1.0) = false).
  { apply negb_false_iff, andb_true_iff. rewrite !leb_true_iff. lra. }
  rewrite E. clear E.
  match goal with
  | |- context [simulate noise simulations ?w0] => set (w0_ := w0)
  end.
  assert (Hw0 : rng w0_ = seeded_rng seed w /\ files w0_ = files w
                /\ open_error w0_ = open_error w).
  { subst w0_. destruct seed, ci_mode; repeat split. }
  destruct Hw0 as (Hrng0 & Hfiles0 & Herr0).
  replace (if negb ci_mode then simulate noise simulations w0_
           else simulate noise simulations w0_)
    with (simulate noise simulations w0_) by (now destruct ci_mode).
  pose proof (simulate_results noise simulations w0_) as Hres.
  pose proof (simulate_world noise simulations w0_) as Hsim.
  destruct (simulate noise simulations w0_) as [res w1].
  cbn [fst snd] in Hres, Hsim. cbv zeta in Hsim.
  destruct Hsim as (Hrng1 & _ & Hfiles1 & Herr1).
  rewrite Hrng0 in Hres, Hrng1.
  match goal with
  | |- context [classify ?e ci_mode ?w2] =>
      pose proof (classify_tier e ci_mode w2) as Htier;
      pose proof (classify_store e ci_mode w2) as Hst;
      assert (Hst2 : same_store w1 w2)
  end.
  { destruct graph, ci_mode; simpl;
      repeat first [ apply same_store_refl
                   | eapply same_store_trans;
                     [| apply console_print_store ]
                   | eapply same_store_trans;
                     [| apply render_distribution_chart_store ] ]. }
  pose proof (same_store_trans _ _ _ Hst2 Hst) as Hst3.
  clear Hst Hst2.
  match goal with
  | H : context [classify ?e ci_mode ?w2] |- _ =>
      destruct (classify e ci_mode w2) as [[msg code] w3]
  end.
  cbn [fst snd] in Htier, Hst3.
  destruct Hst3 as (Hrng3 & Hfiles3 & Herr3).
  assert (Hfr : {| results := res; entropy := calculate_entropy res;
                   bias := calculate_collapse_bias res;
                   state_0_count := get (Counter res) 0 0;
                   state_1_count := get (Counter res) 1 0;
                   status_msg := msg; exit_code := code |}
                = frame_of noise simulations (seeded_rng seed w)).
  { unfold frame_of. rewrite <- Hres, <- Htier. reflexivity. }
  assert (Hcode : code = exit_code (frame_of noise simulations (seeded_rng seed w))).
  { rewrite <- Hfr. reflexivity. }
  rewrite Hfr.
  destruct (truthy output) as [path|].
  - rewrite <- Herr0, <- Herr1, Herr3.
    destruct (open_error w3 path) as [e|].
    + cbn [locals final exit_status].
      repeat split; try reflexivity; try congruence.
      * unfold console_print; cbn [rng]. congruence.
      * unfold console_print; cbn [files]. congruence.
      * eexists. reflexivity.
    + cbn [locals final exit_status]. rewrite exit_code_raised.
      repeat split; try assumption.
      * destruct ci_mode; simpl; congruence.
      * destruct ci_mode; simpl; congruence.
      * destruct ci_mode; simpl; rewrite <- Hfiles0, <- Hfiles1, Hfiles3;
          reflexivity.
  - cbn [locals final exit_status]. rewrite exit_code_raised.
    repeat split; try assumption; congruence.
Qed.

Lemma valid_or_not (simulations : Z) (noise : R) :
  ((simulations <= 0)%Z \/ ~ (0 <= noise <= 1))
  \/ ((0 < simulations)%Z /\ 0 <= noise <= 1).
Proof.
  destruct (Z.leb_spec simulations 0); [left; now left|].
  destruct (Rle_dec 0 noise); [|left; right; lra].
  destruct (Rle_dec noise 1); [right; split; [assumption | lra] |].
  left; right; lra.
Qed.

Lemma tier_cases (e : R) :
  (0.8 < e /\ tier e = ("CRITICAL: High structural fragility detected."%string, 1%Z))
  \/ (e <= 0.8 /\ 0.4 < e
      /\ tier e = ("WARNING: Moderate drift detected."%string, 0%Z))
  \/ (e <= 0.4 /\ tier e = ("STABLE: System appears robust."%string, 0%Z)).
Proof.
  unfold tier.
  destruct (Rlt_dec 0.8 e); [left; split; [assumption | reflexivity]|].
  destruct (Rlt_dec 0.4 e).
  - right; left. repeat split; [lra | assumption].
  - right; right. split; [lra | reflexivity].
Qed.

(** C3. The status and the exit code depend on the entropy alone: above 0.8
    CRITICAL, else above 0.4 WARNING, else STABLE, both comparisons strict,
    so that 0.4 is STABLE and 0.8 is WARNING (on binary64 floats too, where
    0.40001 is WARNING and 0.80001 CRITICAL); and the status of every run
    is the tier of its entropy. *)
Theorem classification_thresholds (e : R) (ci_mode : bool) (w : world) :
  fst (classify e ci_mode w) = tier e
  /\ (0.8 < e ->
      tier e = ("CRITICAL: High structural fragility detected."%string, 1%Z))
  /\ (e <= 0.8 -> 0.4 < e ->
      tier e = ("WARNING: Moderate drift detected."%string, 0%Z))
  /\ (e <= 0.4 -> tier e = ("STABLE: System appears robust."%string, 0%Z))
  /\ fst (classify 0.4 ci_mode w) =
     ("STABLE: System appears robust."%string, 0%Z)
  /\ fst (classify 0.8 ci_mode w) =
     ("WARNING: Moderate drift detected."%string, 0%Z)
  /\ Binary64.classify 0.4%float =
     ("STABLE: System appears robust."%string, 0%Z)
  /\ Binary64.classify 0.40001%float =
     ("WARNING: Moderate drift detected."%string, 0%Z)
  /\ Binary64.classify 0.8%float =
     ("WARNING: Moderate drift detected."%string, 0%Z)
  /\ Binary64.classify 0.80001%float =
     ("CRITICAL: High structural fragility detected."%string, 1%Z)
  /\ (forall simulations noise seed output graph fr,
        locals (analyze simulations noise seed output graph ci_mode w)
        = Some fr ->
        (status_msg fr, exit_code fr) = tier (entropy fr)).
Proof.
  split; [apply classify_tier|].
  repeat match goal with |- _ /\ _ => split end; try reflexivity.
  - intros He. destruct (tier_cases e) as [[_ E]|[(? & ? & E)|[? E]]];
      [exact E | lra | lra].
  - intros He1 He2. destruct (tier_cases e) as [[? E]|[(? & ? & E)|[? E]]];
      [lra | exact E | lra].
  - intros He. destruct (tier_cases e) as [[? E]|[(? & ? & E)|[? E]]];
      [lra | lra | exact E].
  - rewrite classify_tier.
    destruct (tier_cases 0.4) as [[? E]|[(? & ? & E)|[? E]]];
      [lra | lra | exact E].
  - rewrite classify_tier.
    destruct (tier_cases 0.8) as [[? E]|[(? & ? & E)|[? E]]];
      [lra | exact E | lra].
  - intros simulations noise seed output graph fr Hfr.
    destruct (valid_or_not simulations noise) as [Hbad|[Hs Hn]].
    + pose proof (analyze_rejects simulations noise seed output graph
                    ci_mode w Hbad) as Hrej.
      cbv zeta in Hrej. destruct Hrej as (_ & Hnone & _). congruence.
    + pose proof (analyze_accepts simulations noise seed output graph
                    ci_mode w Hs Hn) as Hacc.
      cbv zeta in Hacc. destruct Hacc as (Hsome & _).
      rewrite Hsome in Hfr. inversion Hfr; subst fr. unfold frame_of.
      cbn [status_msg exit_code entropy]. now destruct (tier _).
Qed.

(** C4. On a non-empty sequence of outcomes the entropy is in [[0, 1]] and
    the bias in [[0, 0.5]]; so a run with a positive number of trials and a
    noise in [[0, 1]] reports an entropy in [[0, 1]] and a bias in
    [[0, 0.5]]. *)
Theorem metrics_ranges (simulations : Z) (noise : R) (seed : option Z)
  (output : option string) (graph ci_mode : bool) (w : world) :
  (0 < simulations)%Z -> 0 <= noise <= 1 ->
  (forall s, s <> [] -> binary s ->
     0 <= calculate_entropy s <= 1 /\ 0 <= calculate_collapse_bias s <= 0.5)
  /\ exists fr,
      locals (analyze simulations noise seed output graph ci_mode w) = Some fr
      /\ Py.len (results fr) = simulations
      /\ binary (results fr)
      /\ entropy fr = calculate_entropy (results fr)
      /\ bias fr = calculate_collapse_bias (results fr)
      /\ 0 <= entropy fr <= 1
      /\ 0 <= bias fr <= 0.5.
Proof.
  intros Hs Hn. split.
  - intros s _ Hb. split.
    + now apply calculate_entropy_range.
    + apply calculate_collapse_bias_range.
  - pose proof (analyze_accepts simulations noise seed output graph
                  ci_mode w Hs Hn) as Hacc.
    cbv zeta in Hacc. destruct Hacc as (Hsome & _).
    eexists. split; [exact Hsome|].
    unfold frame_of. cbn [results entropy bias].
    pose proof (comprehension_binary noise (Z.to_nat simulations)
                  (seeded_rng seed w)) as Hb.
    repeat split; try assumption; try reflexivity.
    + unfold Py.len. rewrite comprehension_length. lia.
    + now apply calculate_entropy_range.
    + now apply calculate_entropy_range.
    + apply calculate_collapse_bias_range.
    + apply calculate_collapse_bias_range.
Qed.

(** C5, as the code has it. Validation comes before any outcome is
    generated and checks the number of trials first: when it is not
    positive the run prints [Simulations must be > 0] and exits with status
    1; otherwise, when the noise is outside [[0, 1]], the run prints
    [Noise must be between 0.0 and 1.0] and exits with status 1.  In both
    cases no outcome is generated and no file is written. *)
Theorem validation_rejects (simulations : Z) (noise : R) (seed : option Z)
  (output : option string) (graph ci_mode : bool) (w : world) :
  (simulations <= 0)%Z \/ ~ (0 <= noise <= 1) ->
  let r := analyze simulations noise seed output graph ci_mode w in
  exit_status r = 1%Z
  /\ locals r = None
  /\ files (final r) = files w
  /\ console (final r) =
     console w ++ seed_notice seed ci_mode
     ++ [Markup
           [Lit (if (simulations <=? 0)%Z
                 then "[bold red]❌ Simulations must be > 0[/bold red]"
                 else "[bold red]❌ Noise must be between 0.0 and 1.0[/bold red]")]].
Proof.
  intros Hbad.
  pose proof (analyze_rejects simulations noise seed output graph ci_mode w
                Hbad) as Hrej.
  cbv zeta in *. tauto.
Qed.

(** C6. With a seed, the outcomes, the entropy, the bias and the status of a
    run are determined by the seed, the number of trials and the noise:
    two runs on these agree on all their local variables and leave the
    random source in the same state, whatever the process state each one
    started from and whatever the presentation flags. *)
Theorem seeded_runs_agree (simulations : Z) (noise : R) (s : Z)
  (output1 output2 : option string) (graph1 graph2 ci_mode1 ci_mode2 : bool)
  (w1 w2 : world) :
  let r1 := analyze simulations noise (Some s) output1 graph1 ci_mode1 w1 in
  let r2 := analyze simulations noise (Some s) output2 graph2 ci_mode2 w2 in
  locals r1 = locals r2
  /\ rng (final r1) = rng (final r2)
  /\ ((0 < simulations)%Z /\ 0 <= noise <= 1 ->
      exists fr,
        locals r1 = Some fr /\ locals r2 = Some fr
        /\ results fr =
           fst (comprehension noise (Z.to_nat simulations) (rng_seed s))
        /\ entropy fr = calculate_entropy (results fr)
        /\ bias fr = calculate_collapse_bias (results fr)
        /\ (status_msg fr, exit_code fr) = tier (entropy fr)).
Proof.
  cbv zeta.
  destruct (valid_or_not simulations noise) as [Hbad|[Hs Hn]].
  - pose proof (analyze_rejects simulations noise (Some s) output1 graph1
                  ci_mode1 w1 Hbad) as H1.
    pose proof (analyze_rejects simulations noise (Some s) output2 graph2
                  ci_mode2 w2 Hbad) as H2.
    cbv zeta in H1, H2.
    destruct H1 as (_ & L1 & R1 & _), H2 as (_ & L2 & R2 & _).
    split; [congruence|]. split; [cbn [seeded_rng] in *; congruence|].
    intros [Hs Hn]. exfalso. destruct Hbad; [lia | tauto].
  - pose proof (analyze_accepts simulations noise (Some s) output1 graph1
                  ci_mode1 w1 Hs Hn) as H1.
    pose proof (analyze_accepts simulations noise (Some s) output2 graph2
                  ci_mode2 w2 Hs Hn) as H2.
    cbv zeta in H1, H2.
    destruct H1 as (L1 & R1 & _), H2 as (L2 & R2 & _).
    cbn [seeded_rng] in *.
    split; [congruence|]. split; [congruence|].
    intros _. eexists. split; [exact L1|]. split; [exact L2|].
    unfold frame_of. cbn [results entropy bias status_msg exit_code].
    repeat split. now destruct (tier _).
Qed.

(** C7, as the code has it. A run that fails validation exits at once with
    status 1: no outcome is generated, no draw is taken from the random
    source, no file is written, and the console gains the error message.
    The seeding of lines 72-75 comes before validation: with a seed the
    random source is left reseeded (and the seed notice printed unless
    [ci_mode]); without a seed the random source is untouched. *)
Theorem rejected_run_state (simulations : Z) (noise : R) (seed : option Z)
  (output : option string) (graph ci_mode : bool) (w : world) :
  (simulations <= 0)%Z \/ ~ (0 <= noise <= 1) ->
  let r := analyze simulations noise seed output graph ci_mode w in
  exit_status r = 1%Z
  /\ locals r = None
  /\ rng (final r) = match seed with Some s => rng_seed s | None => rng w end
  /\ (seed = None -> rng (final r) = rng w)
  /\ files (final r) = files w
  /\ open_error (final r) = open_error w
  /\ exists message,
      console (final r) =
      console w ++ seed_notice seed ci_mode ++ [Markup [Lit message]].
Proof.
  intros Hbad.
  pose proof (analyze_rejects simulations noise seed output graph ci_mode w
                Hbad) as Hrej.
  cbv zeta in *.
  destruct Hrej as (Hexit & Hloc & Hrng & Hfiles & Herr & Hcons).
  repeat split; try assumption.
  - intros ->. exact Hrng.
  - eexists. exact Hcons.
Qed.

End Run.

(** ** Export *)

Section ReportFile.
Context `{RandomSource}.

Lemma critical_exit_code (e : R) :
  fst (tier e) = "CRITICAL: High structural fragility detected."%string ->
  snd (tier e) = 1%Z.
Proof.
  destruct (tier_cases e) as [[_ E]|[(_ & _ & E)|[_ E]]]; rewrite E; simpl;
    [reflexivity | discriminate | discriminate].
Qed.

(** C10. On a run that passes validation with a non-empty output path and
    is classified CRITICAL, the export of lines 133-155 comes before the
    exit of lines 157-158: when the file opens, the report is in the file,
    with the CRITICAL status in it, and the process exits with status 1;
    when it does not, the error is printed and the process exits with
    status 1. *)
Theorem export_precedes_critical_exit (simulations : Z) (noise : R)
  (seed : option Z) (path : string) (graph ci_mode : bool) (w : world)
  (fr : frame) :
  (0 < simulations)%Z -> 0 <= noise <= 1 -> path <> ""%string ->
  let r := analyze simulations noise seed (Some path) graph ci_mode w in
  locals r = Some fr ->
  status_msg fr = "CRITICAL: High structural fragility detected."%string ->
  match open_error w path with
  | None =>
      files (final r) path = Some (report_data simulations noise seed fr)
      /\ member "status" (report_data simulations noise seed fr) =
         Some (JString "CRITICAL: High structural fragility detected.")
      /\ exit_status r = 1%Z
  | Some e =>
      (exists printed,
         console (final r) =
         printed ++ [Markup [Lit "[bold red]❌ Error saving JSON: ";
                             Lit e; Lit "[/bold red]"]])
      /\ exit_status r = 1%Z
  end.
Proof.
  intros Hs Hn Hpath r Hloc Hcrit. subst r.
  pose proof (analyze_accepts simulations noise seed (Some path) graph
                ci_mode w Hs Hn) as Hacc.
  cbv zeta in Hacc. destruct Hacc as (Hsome & _ & _ & Hout).
  rewrite Hsome in Hloc. inversion Hloc as [Hfr]. rewrite Hfr in *.
  assert (Hcode : exit_code fr = 1%Z).
  { rewrite <- Hfr in *. unfold frame_of in *.
    cbn [status_msg exit_code] in *. now apply critical_exit_code. }
  unfold truthy in Hout.
  destruct (String.eqb_spec path "") as [|_]; [contradiction|].
  destruct (open_error w path) as [e|].
  - destruct Hout as (Hexit & Hfiles & Hcons). auto.
  - destruct Hout as (Hexit & Hfiles).
    split; [|split].
    + rewrite Hfiles. now rewrite String.eqb_refl.
    + unfold report_data, member. cbn. now rewrite Hcrit.
    + congruence.
Qed.

End ReportFile.

(** ** Runs on a concrete random source *)

Lemma digit_run :
  fst (@comprehension digit_source 0.5 2 0%Z) = [1; 0]%Z.
Proof.
  cbn [comprehension]. rewrite !quantum_gate_simulation_unfold.
  cbn [rng_random digit_source fst snd].
  rewrite shifted_probability_valid by lra.
  unfold collapse.
  change (0 mod 10)%Z with 0%Z. change ((0 + 7) mod 10)%Z with 7%Z.
  decide_cmp. reflexivity.
Qed.

Lemma digit_run_critical :
  status_msg (@frame_of digit_source 0.5 2 0%Z) =
  "CRITICAL: High structural fragility detected."%string.
Proof.
  unfold frame_of. cbn [status_msg]. change (Z.to_nat 2) with 2%nat.
  rewrite digit_run.
  destruct (metrics_balanced [1; 0]%Z) as [He _];
    [discriminate | intros x Hx; simpl in Hx; intuition | reflexivity |].
  rewrite He.
  destruct (tier_cases 1) as [[_ E]|[(? & _)|[? _]]]; [now rewrite E | lra | lra].
Qed.

Lemma clamp_redundant_witness :
  0.0 <= 0.9 * (1.0 - 0.5) <= 1.0
  /\ Py.max 0.0 (Py.min 1.0 (0.9 * (1.0 - 0.5))) = 0.9 * (1.0 - 0.5)
  /\ shifted_probability 0.5 = 0.9 * (1.0 - 0.5)
  /\ @quantum_gate_simulation digit_source 0.5 0%Z =
     (collapse (fst (@rng_random digit_source 0%Z)) (0.9 * (1.0 - 0.5)),
      snd (@rng_random digit_source 0%Z)).
Proof.
  apply (@clamp_redundant digit_source 0.5 0%Z). lra.
Defined.

Lemma metrics_ranges_witness :
  exists fr,
    locals (analyze 2 0.5 (Some 0%Z) None true true (fresh 0)) = Some fr
    /\ Py.len (results fr) = 2%Z
    /\ binary (results fr)
    /\ entropy fr = calculate_entropy (results fr)
    /\ bias fr = calculate_collapse_bias (results fr)
    /\ 0 <= entropy fr <= 1
    /\ 0 <= bias fr <= 0.5.
Proof.
  apply (@metrics_ranges digit_source 2 0.5 (Some 0%Z) None true true (fresh 0));
    [lia | lra].
Defined.

Lemma validation_rejects_witness :
  exit_status (analyze 0 1.5 None None true true (fresh 0)) = 1%Z
  /\ locals (analyze 0 1.5 None None true true (fresh 0)) = None
  /\ files (final (analyze 0 1.5 None None true true (fresh 0))) =
     files (fresh 0)
  /\ console (final (analyze 0 1.5 None None true true (fresh 0))) =
     [Markup [Lit "[bold red]❌ Simulations must be > 0[/bold red]"]].
Proof.
  apply (@validation_rejects digit_source 0 1.5 None None true true (fresh 0)).
  left. lia.
Defined.

(** C5, as the claim words it, fails: a run with a noise of 1.5 exits with
    status 1 after printing a message that does not contain the words
    [noise out of range], and the message of a run with no trial does not
    contain [simulations must be > 0] in that spelling. *)
Lemma rejection_messages_differ :
  exit_status (analyze 10 1.5 None None true true (fresh 0)) = 1%Z
  /\ existsb (mentions "Noise must be between 0.0 and 1.0")
       (console (final (analyze 10 1.5 None None true true (fresh 0))))
     = true
  /\ existsb (mentions "noise out of range")
       (console (final (analyze 10 1.5 None None true true (fresh 0))))
     = false
  /\ existsb (mentions "simulations must be > 0")
       (console (final (analyze 0 0.3 None None true true (fresh 0))))
     = false.
Proof.
  destruct (@analyze_rejects digit_source 10 1.5 None None true true (fresh 0))
    as (Hexit & _ & _ & _ & _ & Hcons); [right; lra|].
  destruct (@analyze_rejects digit_source 0 0.3 None None true true (fresh 0))
    as (_ & _ & _ & _ & _ & Hcons0); [left; lia|].
  rewrite Hcons, Hcons0. split; [exact Hexit|].
  repeat split; vm_compute; reflexivity.
Qed.

Lemma rejected_run_state_witness :
  exit_status (analyze 0 0.3 (Some 42%Z) None true true (fresh 7)) = 1%Z
  /\ locals (analyze 0 0.3 (Some 42%Z) None true true (fresh 7)) = None
  /\ rng (final (analyze 0 0.3 (Some 42%Z) None true true (fresh 7))) = 42%Z
  /\ (Some 42%Z = None ->
      rng (final (analyze 0 0.3 (Some 42%Z) None true true (fresh 7))) = 7%Z)
  /\ files (final (analyze 0 0.3 (Some 42%Z) None true true (fresh 7))) =
     files (fresh 7)
  /\ open_error (final (analyze 0 0.3 (Some 42%Z) None true true (fresh 7))) =
     open_error (fresh 7)
  /\ exists message,
      console (final (analyze 0 0.3 (Some 42%Z) None true true (fresh 7))) =
      [Markup [Lit message]].
Proof.
  apply (@rejected_run_state digit_source 0 0.3 (Some 42%Z) None true true
           (fresh 7)).
  left. lia.
Defined.

(** C7, as the claim words it, fails: a run with seed 42 and no trial is
    rejected, yet it leaves the random source in the state of seed 42, not
    in the state it found. *)
Lemma rejected_run_reseeds :
  locals (analyze 0 0.3 (Some 42%Z) None true true (fresh 7)) = None
  /\ rng (final (analyze 0 0.3 (Some 42%Z) None true true (fresh 7)))
     <> rng (fresh 7).
Proof.
  destruct (@analyze_rejects digit_source 0 0.3 (Some 42%Z) None true true
              (fresh 7)) as (_ & Hloc & Hrng & _); [left; lia|].
  split; [exact Hloc|]. rewrite Hrng. simpl. discriminate.
Qed.

Lemma export_precedes_critical_exit_witness :
  files (final (analyze 2 0.5 (Some 0%Z) (Some "report.json"%string)
                  true true (fresh 5)))
    "report.json"%string =
  Some (report_data 2 0.5 (Some 0%Z) (@frame_of digit_source 0.5 2 0%Z))
  /\ member "status"
       (report_data 2 0.5 (Some 0%Z) (@frame_of digit_source 0.5 2 0%Z)) =
     Some (JString "CRITICAL: High structural fragility detected.")
  /\ exit_status (analyze 2 0.5 (Some 0%Z) (Some "report.json"%string)
                    true true (fresh 5)) = 1%Z.
Proof.
  apply (@export_precedes_critical_exit digit_source 2 0.5 (Some 0%Z)
           "report.json" true true (fresh 5)
           (@frame_of digit_source 0.5 2 0%Z)).
  - lia.
  - lra.
  - discriminate.
  - apply (@analyze_accepts digit_source 2 0.5 (Some 0%Z)
             (Some "report.json"%string) true true (fresh 5)); [lia | lra].
  - exact digit_run_critical.
Defined.

(** * Further properties of the module *)

(** ** The generator beyond the validated range *)

(** Splits every [Rmin], then every [Rmax], of the goal into its two cases
    and closes them by linear arithmetic. *)
Ltac clamp_cases :=
  unfold Rmin;
  repeat match goal with
         | |- context [Rle_dec ?a ?b] => destruct (Rle_dec a b)
         end;
  unfold Rmax;
  repeat match goal with
         | |- context [Rle_dec ?a ?b] => destruct (Rle_dec a b)
         end;
  lra.

Lemma shifted_probability_antitone (noise1 noise2 : R) :
  noise1 <= noise2 ->
  shifted_probability noise2 <= shifted_probability noise1.
Proof.
  intros Hle. rewrite !shifted_probability_clamp. clamp_cases.
Qed.

Lemma collapse_monotone (r p q : R) :
  p <= q -> (collapse r p <= collapse r q)%Z.
Proof.
  intros Hpq.
  destruct (collapse_binary r p) as [Ep|Ep]; rewrite Ep.
  - destruct (collapse_binary r q) as [Eq|Eq]; rewrite Eq; lia.
  - apply collapse_one_iff in Ep.
    assert (Eq : collapse r q = 1%Z) by (apply collapse_one_iff; lra).
    rewrite Eq. lia.
Qed.

Lemma binary64_ltb_leb (a b : float) :
  PrimFloat.ltb a b = true -> PrimFloat.leb a b = true.
Proof.
  rewrite ltb_spec, leb_spec. unfold SFltb, SFleb.
  destruct (SFcompare (Prim2SF a) (Prim2SF b)) as [[| |]|];
    try reflexivity; discriminate.
Qed.

Section GeneratorRange.
Context `{RandomSource}.

(** X1. For every real noise, in the validated range or not, the
    probability of a pass is in [[0, 1]] and does not grow with the noise;
    so on the same draw a pass at the higher noise is a pass at the lower
    one. *)
Theorem more_noise_never_helps (noise1 noise2 : R) (s : rng_state) :
  noise1 <= noise2 ->
  0 <= shifted_probability noise2 <= shifted_probability noise1
  /\ shifted_probability noise1 <= 1
  /\ (fst (quantum_gate_simulation noise2 s)
      <= fst (quantum_gate_simulation noise1 s))%Z.
Proof.
  intros Hle.
  pose proof (shifted_probability_antitone noise1 noise2 Hle) as Hanti.
  pose proof (shifted_probability_range noise1) as R1.
  pose proof (shifted_probability_range noise2) as R2.
  split; [lra|]. split; [lra|].
  rewrite !quantum_gate_simulation_unfold. cbn [fst].
  now apply collapse_monotone.
Qed.

(** X2. Outside the validated range the generator saturates: from noise 1
    upwards the probability is 0 and every draw fails; from noise -1/9
    downwards the probability is 1 and every draw passes. *)
Theorem generator_saturates (noise : R) (s : rng_state) :
  (1 <= noise ->
   shifted_probability noise = 0
   /\ fst (quantum_gate_simulation noise s) = 0%Z)
  /\ (noise <= - (1 / 9) ->
      shifted_probability noise = 1
      /\ fst (quantum_gate_simulation noise s) = 1%Z).
Proof.
  pose proof (rng_random_range s) as Hr.
  rewrite quantum_gate_simulation_unfold. cbn [fst].
  split; intros Hn.
  - assert (E : shifted_probability noise = 0).
    { rewrite shifted_probability_clamp. clamp_cases. }
    split; [exact E|]. rewrite E.
    destruct (collapse_binary (fst (rng_random s)) 0) as [E0|E1]; auto.
    apply collapse_one_iff in E1. lra.
  - assert (E : shifted_probability noise = 1).
    { rewrite shifted_probability_clamp. clamp_cases. }
    split; [exact E|]. rewrite E. apply collapse_one_iff. lra.
Qed.

End GeneratorRange.

Lemma more_noise_never_helps_witness :
  0 <= shifted_probability 0.7 <= shifted_probability 0.2
  /\ shifted_probability 0.2 <= 1
  /\ (fst (@quantum_gate_simulation digit_source 0.7 0%Z)
      <= fst (@quantum_gate_simulation digit_source 0.2 0%Z))%Z.
Proof.
  apply (@more_noise_never_helps digit_source 0.2 0.7 0%Z). lra.
Defined.

Lemma generator_saturates_witness :
  (shifted_probability 2 = 0
   /\ fst (@quantum_gate_simulation digit_source 2 3%Z) = 0%Z)
  /\ (shifted_probability (-1) = 1
      /\ fst (@quantum_gate_simulation digit_source (-1) 3%Z) = 1%Z).
Proof.
  split.
  - apply (proj1 (@generator_saturates digit_source 2 3%Z)). lra.
  - apply (proj2 (@generator_saturates digit_source (-1) 3%Z)). lra.
Defined.

(** X3. On binary64 floats the clamp of line 18 makes the probability a
    float between 0.0 and 1.0 for every noise, NaN and the infinities
    included. *)
Theorem binary64_probability_in_range (noise : float) :
  PrimFloat.leb 0.0%float (Binary64.shifted_probability noise) = true
  /\ PrimFloat.leb (Binary64.shifted_probability noise) 1.0%float = true.
Proof.
  unfold Binary64.shifted_probability, Binary64.py_max, Binary64.py_min.
  cbv zeta.
  set (z := (0.9 * (1.0 - noise))%float).
  destruct (PrimFloat.ltb z 1.0%float) eqn:Hlt1.
  - destruct (PrimFloat.ltb 0.0%float z) eqn:Hlt0.
    + split; now apply binary64_ltb_leb.
    + split; reflexivity.
  - change (PrimFloat.ltb 0.0%float 1.0%float) with true. cbv iota.
    split; reflexivity.
Qed.

(** ** Comparisons of binary64 floats *)

Lemma SFcompare_antisym (a b : spec_float) :
  SFcompare b a =
  match SFcompare a b with Some c => Some (CompOpp c) | None => None end.
Proof.
  destruct a as [s1 | s1 | | s1 m1 e1], b as [s2 | s2 | | s2 m2 e2];
    simpl; try reflexivity;
    try (destruct s1; reflexivity); try (destruct s2; reflexivity);
    try (destruct s1, s2; reflexivity).
  destruct s1, s2; try reflexivity;
    rewrite (Z.compare_antisym e1 e2);
    destruct (e1 ?= e2)%Z; simpl; try reflexivity;
    rewrite (Pos.compare_cont_antisym m1 m2 Eq); reflexivity.
Qed.

Lemma binary64_leb_not_gt (a b : float) :
  PrimFloat.leb a b = true -> PrimFloat.ltb b a = false.
Proof.
  rewrite leb_spec, ltb_spec. unfold SFleb, SFltb.
  rewrite (SFcompare_antisym (Prim2SF a) (Prim2SF b)).
  destruct (SFcompare (Prim2SF a) (Prim2SF b)) as [[| |]|];
    simpl; try reflexivity; discriminate.
Qed.

Lemma binary64_leb_not_nan_l (a b : float) :
  PrimFloat.leb a b = true -> Prim2SF a <> S754_nan.
Proof.
  rewrite leb_spec. unfold SFleb. intros Hle E. rewrite E in Hle.
  simpl in Hle. discriminate.
Qed.

Lemma binary64_leb_not_nan_r (a b : float) :
  PrimFloat.leb a b = true -> Prim2SF b <> S754_nan.
Proof.
  rewrite leb_spec. unfold SFleb. intros Hle E. rewrite E in Hle.
  destruct (Prim2SF a); simpl in Hle; discriminate.
Qed.

(** X4. On binary64 floats the test of line 81 accepts no NaN, no infinity
    and no float below zero or above one: a noise that passes it is a
    finite float that compares neither below 0.0 nor above 1.0. *)
Theorem binary64_validation_is_strict (noise : float) :
  noise_accepted_binary64 noise = true ->
  Prim2SF noise <> S754_nan
  /\ (forall sgn, Prim2SF noise <> S754_infinity sgn)
  /\ PrimFloat.ltb noise 0.0%float = false
  /\ PrimFloat.ltb 1.0%float noise = false.
Proof.
  unfold noise_accepted_binary64. intros Hacc.
  apply andb_true_iff in Hacc. destruct Hacc as [H0 H1].
  split; [exact (binary64_leb_not_nan_r _ _ H0)|].
  split; [|split; now apply binary64_leb_not_gt].
  intros sgn E. rewrite leb_spec in H0, H1. rewrite E in H0, H1.
  set (zero := Prim2SF 0%float) in *. set (one := Prim2SF 1%float) in *.
  vm_compute in zero, one. subst zero one.
  destruct sgn; simpl in H0, H1; discriminate.
Qed.

Lemma binary64_validation_is_strict_witness :
  Prim2SF 0.3%float <> S754_nan
  /\ (forall sgn, Prim2SF 0.3%float <> S754_infinity sgn)
  /\ PrimFloat.ltb 0.3%float 0.0%float = false
  /\ PrimFloat.ltb 1.0%float 0.3%float = false.
Proof.
  apply (binary64_validation_is_strict 0.3%float). reflexivity.
Defined.

(** ** The entropy of arbitrary integer lists *)

Lemma Counter_value_bounds (s : list Z) (n : Z) :
  In n (values (Counter s)) -> (0 < n <= Py.len s)%Z.
Proof.
  unfold values. rewrite in_map_iff. intros [[k n'] [E Hin]].
  simpl in E. subst n'. apply In_Counter in Hin. destruct Hin as [-> Hpos].
  split; [assumption | apply count_le_len].
Qed.





Lemma Rsum_nonpos (l : list R) :
  (forall x, In x l -> x <= 0) -> Rsum l <= 0.
Proof.
  induction l as [|x l IH]; simpl; intros Hall; [lra|].
  pose proof (Hall x (or_introl eq_refl)).
  assert (Rsum l <= 0) by (apply IH; intros y Hy; apply Hall; now right).
  lra.
Qed.

Lemma Rsum_nonpos_zero (l : list R) :
  (forall x, In x l -> x <= 0) -> Rsum l = 0 -> forall x, In x l -> x = 0.
Proof.
  induction l as [|y l IH]; simpl; intros Hall Hsum x Hx; [tauto|].
  pose proof (Hall y (or_introl eq_refl)) as Hy.
  assert (Hl : forall z, In z l -> z <= 0) by (intros z Hz; apply Hall; now right).
  pose proof (Rsum_nonpos l Hl) as Hs.
  destruct Hx as [<-|Hx]; [lra|].
  apply IH; auto. lra.
Qed.

Lemma plogp_count_nonpos (total n : Z) :
  (0 < n <= total)%Z -> plogp total n <= 0.
Proof.
  intros [Hn Hle]. unfold plogp. apply plogp_nonpos.
  pose proof (truediv_pos n total Hn ltac:(lia)).
  pose proof (truediv_range n total ltac:(lia) ltac:(lia)).
  lra.
Qed.

Lemma plogp_negative (p : R) : 0 < p < 1 -> p * Py.log2 p < 0.
Proof.
  intros [Hp Hp1]. unfold Py.log2. pose proof ln_2_pos as H2.
  pose proof (ln_increasing p 1 Hp Hp1) as Hln. rewrite ln_1 in Hln.
  assert (ln p / ln 2 < 0).
  { apply (Rmult_lt_reg_r (ln 2)); [assumption|].
    replace (ln p / ln 2 * ln 2) with (ln p) by (field; lra). lra. }
  nra.
Qed.

Lemma truediv_lt_1 (n total : Z) :
  (0 < n < total)%Z -> 0 < Py.truediv n total < 1.
Proof.
  intros [Hn Hlt]. split; [apply truediv_pos; lia|].
  unfold Py.truediv. apply IZR_lt in Hn, Hlt.
  apply (Rmult_lt_reg_r (IZR total)); [lra|].
  replace (IZR n / IZR total * IZR total) with (IZR n) by (field; lra). lra.
Qed.

Lemma plogp_count_zero (total n : Z) :
  (0 < n <= total)%Z -> plogp total n = 0 -> n = total.
Proof.
  intros [Hn Hle] Hz. destruct (Z.eq_dec n total) as [|Hne]; [assumption|].
  exfalso. unfold plogp in Hz.
  pose proof (plogp_negative _ (truediv_lt_1 n total ltac:(lia))). lra.
Qed.

Lemma count_distinct_le (s : list Z) (x y : Z) :
  x <> y -> (Py.count s x + Py.count s y <= Py.len s)%Z.
Proof.
  intros Hne. unfold Py.len.
  induction s as [|z s IH]; cbn [Py.count List.length]; [lia|].
  rewrite Nat2Z.inj_succ.
  destruct (Z.eqb_spec z x), (Z.eqb_spec z y); try lia; congruence.
Qed.

Lemma count_constant (s : list Z) (b : Z) :
  (forall x, In x s -> x = b) -> Py.count s b = Py.len s.
Proof.
  unfold Py.len. induction s as [|z s IH]; intros Hall;
    cbn [Py.count List.length]; [reflexivity|].
  rewrite Nat2Z.inj_succ, IH by (intros x Hx; apply Hall; now right).
  rewrite (Hall z (or_introl eq_refl)), Z.eqb_refl. lia.
Qed.



(** X6. [calculate_entropy] is never negative, whatever integers the list
    holds. *)
Theorem calculate_entropy_nonnegative (s : list Z) :
  0 <= calculate_entropy s.
Proof.
  rewrite calculate_entropy_sum.
  assert (Rsum (map (plogp (Py.len s)) (values (Counter s))) <= 0); [|lra].
  apply Rsum_nonpos. intros x Hx. apply in_map_iff in Hx.
  destruct Hx as [n [<- Hn]].
  apply plogp_count_nonpos, Counter_value_bounds, Hn.
Qed.

(** X7. [calculate_entropy] is 0 exactly on the lists whose elements are all
    equal (the empty list among them). *)
Theorem calculate_entropy_zero_iff (s : list Z) :
  calculate_entropy s = 0 <-> (forall x y, In x s -> In y s -> x = y).
Proof.
  rewrite calculate_entropy_sum. split.
  - intros Hz x y Hx Hy.
    assert (Hsum : Rsum (map (plogp (Py.len s)) (values (Counter s))) = 0)
      by lra.
    assert (Hfull : forall z, In z s -> Py.count s z = Py.len s).
    { intros z Hzs. pose proof (In_count_pos s z Hzs) as Hpos.
      assert (Hin : In (Py.count s z) (values (Counter s))).
      { unfold values. apply in_map_iff. exists (z, Py.count s z).
        split; [reflexivity|]. apply In_Counter. auto. }
      apply plogp_count_zero; [now apply Counter_value_bounds|].
      apply (Rsum_nonpos_zero (map (plogp (Py.len s)) (values (Counter s)))).
      - intros v Hv. apply in_map_iff in Hv. destruct Hv as [n [<- Hn]].
        apply plogp_count_nonpos, Counter_value_bounds, Hn.
      - exact Hsum.
      - now apply in_map. }
    destruct (Z.eq_dec x y) as [|Hne]; [assumption|]. exfalso.
    pose proof (count_distinct_le s x y Hne).
    pose proof (Hfull x Hx). pose proof (Hfull y Hy).
    pose proof (In_count_pos s x Hx). lia.
  - intros Hall. destruct s as [|b s'] eqn:Es; [simpl; lra|].
    rewrite <- Es in *. assert (Hne : s <> []) by (subst; discriminate).
    assert (Hb : forall x, In x s -> x = b).
    { intros x Hx. apply Hall; [assumption | subst; now left]. }
    pose proof (len_pos s Hne) as Ht.
    assert (HP : Permutation (Counter s) [(b, Py.len s)]).
    { apply NoDup_Permutation.
      - apply NoDup_Counter.
      - repeat constructor. simpl. tauto.
      - intros [k n]. rewrite In_Counter. simpl. split.
        + intros [-> Hn]. left.
          rewrite (Hb k (count_pos_In _ _ Hn)).
          now rewrite (count_constant s b Hb).
        + intros [E|[]]. inversion E; subst k n.
          split; [symmetry; now apply count_constant | assumption]. }
    apply (Permutation_map snd), (Permutation_map (plogp (Py.len s))) in HP.
    fold (values (Counter s)) in HP.
    rewrite (Rsum_Permutation _ _ HP). simpl. unfold plogp.
    rewrite truediv_self, log2_1 by assumption. lra.
Qed.

(** ** Balance, extremes and symmetry of the two metrics *)




Lemma truediv_half_iff (c total : Z) :
  (0 < total)%Z -> (Py.truediv c total = / 2 <-> (2 * c = total)%Z).
Proof.
  intros Ht. unfold Py.truediv. pose proof (IZR_lt _ _ Ht) as Hr. split.
  - intros E. apply eq_IZR. rewrite mult_IZR.
    assert (IZR c = / 2 * IZR total).
    { rewrite <- E. field. lra. }
    lra.
  - intros <-. rewrite mult_IZR in *. field. lra.
Qed.

Lemma truediv_zero_iff (c total : Z) :
  (0 < total)%Z -> (Py.truediv c total = 0 <-> c = 0%Z).
Proof.
  intros Ht. unfold Py.truediv. pose proof (IZR_lt _ _ Ht) as Hr. split.
  - intros E. apply eq_IZR.
    assert (IZR c = 0 * IZR total) by (rewrite <- E; field; lra). lra.
  - intros ->. lra.
Qed.

Lemma truediv_one_iff (c total : Z) :
  (0 < total)%Z -> (Py.truediv c total = 1 <-> c = total).
Proof.
  intros Ht. unfold Py.truediv. pose proof (IZR_lt _ _ Ht) as Hr. split.
  - intros E. apply eq_IZR.
    assert (IZR c = 1 * IZR total) by (rewrite <- E; field; lra). lra.
  - intros ->. field. lra.
Qed.

Lemma Rabs_half_cases (x : R) :
  0 <= x <= 1 ->
  (Rabs (x - 0.5) = 0 <-> x = / 2)
  /\ (Rabs (x - 0.5) = 0.5 <-> x = 0 \/ x = 1).
Proof.
  intros Hx. unfold Rabs. destruct (Rcase_abs (x - 0.5)); split; split;
    intros; lra.
Qed.



(** X9. [calculate_collapse_bias] looks at the 1s only: on a non-empty list
    of any integers it is 0 exactly when half of the elements are 1, and 0.5
    exactly when none or all of them are. *)
Theorem bias_extremes (s : list Z) :
  s <> [] ->
  (calculate_collapse_bias s = 0 <-> (2 * Py.count s 1 = Py.len s)%Z)
  /\ (calculate_collapse_bias s = 0.5 <->
      Py.count s 1 = 0%Z \/ Py.count s 1 = Py.len s).
Proof.
  intros Hs. pose proof (len_pos s Hs) as Ht.
  rewrite (calculate_collapse_bias_ratio s Hs).
  pose proof (truediv_range (Py.count s 1) (Py.len s)
                (conj (count_nonneg s 1) (count_le_len s 1)) Ht) as Hr.
  destruct (Rabs_half_cases _ Hr) as [Hzero Hhalf].
  rewrite Hzero, Hhalf, truediv_half_iff, truediv_zero_iff, truediv_one_iff
    by assumption.
  tauto.
Qed.

Lemma bias_extremes_witness :
  (calculate_collapse_bias [2; 1; 1; 5]%Z = 0
   <-> (2 * Py.count [2; 1; 1; 5]%Z 1 = Py.len [2; 1; 1; 5]%Z)%Z)
  /\ (calculate_collapse_bias [2; 1; 1; 5]%Z = 0.5 <->
      Py.count [2; 1; 1; 5]%Z 1 = 0%Z
      \/ Py.count [2; 1; 1; 5]%Z 1 = Py.len [2; 1; 1; 5]%Z).
Proof.
  apply (bias_extremes [2; 1; 1; 5]%Z). discriminate.
Defined.

Lemma contribution_ratio (total total' c c' : Z) :
  (0 < total)%Z -> (0 < total')%Z -> (0 <= c)%Z -> (0 <= c')%Z ->
  Py.truediv c total = Py.truediv c' total' ->
  contribution total c = contribution total' c'.
Proof.
  intros Ht Ht' Hc Hc' E. unfold contribution, plogp.
  destruct (Z.ltb_spec 0 c) as [P|Z0]; destruct (Z.ltb_spec 0 c') as [P'|Z0'].
  - now rewrite E.
  - exfalso. replace c' with 0%Z in E by lia.
    rewrite (proj2 (truediv_zero_iff 0 total' Ht') eq_refl) in E.
    apply truediv_zero_iff in E; [lia | assumption].
  - exfalso. replace c with 0%Z in E by lia.
    rewrite (proj2 (truediv_zero_iff 0 total Ht) eq_refl) in E.
    symmetry in E. apply truediv_zero_iff in E; [lia | assumption].
  - reflexivity.
Qed.






(** X11. The two metrics depend on the proportion of 1s only: two non-empty
    sequences of outcomes with the same proportion of 1s, whatever their
    lengths, have the same entropy and the same bias. *)
Theorem metrics_depend_on_proportion (s s' : list Z) :
  s <> [] -> s' <> [] -> binary s -> binary s' ->
  (Py.count s 1 * Py.len s' = Py.count s' 1 * Py.len s)%Z ->
  calculate_entropy s = calculate_entropy s'
  /\ calculate_collapse_bias s = calculate_collapse_bias s'.
Proof.
  intros Hs Hs' Hb Hb' Hprop.
  pose proof (len_pos s Hs) as Ht. pose proof (len_pos s' Hs') as Ht'.
  pose proof (binary_count_len s Hb) as Hsum.
  pose proof (binary_count_len s' Hb') as Hsum'.
  assert (E1 : Py.truediv (Py.count s 1) (Py.len s) =
               Py.truediv (Py.count s' 1) (Py.len s')).
  { unfold Py.truediv. apply IZR_lt in Ht, Ht'.
    apply (f_equal IZR) in Hprop. rewrite !mult_IZR in Hprop.
    apply (Rmult_eq_reg_r (IZR (Py.len s) * IZR (Py.len s'))); [|nra].
    replace (IZR (Py.count s 1) / IZR (Py.len s)
             * (IZR (Py.len s) * IZR (Py.len s')))
      with (IZR (Py.count s 1) * IZR (Py.len s')) by (field; lra).
    replace (IZR (Py.count s' 1) / IZR (Py.len s')
             * (IZR (Py.len s) * IZR (Py.len s')))
      with (IZR (Py.count s' 1) * IZR (Py.len s)) by (field; lra).
    exact Hprop. }
  assert (E0 : Py.truediv (Py.count s 0) (Py.len s) =
               Py.truediv (Py.count s' 0) (Py.len s')).
  { pose proof (truediv_sum _ _ _ Hsum Ht).
    pose proof (truediv_sum _ _ _ Hsum' Ht'). lra. }
  split.
  - rewrite (calculate_entropy_binary s Hb), (calculate_entropy_binary s' Hb').
    rewrite (contribution_ratio _ _ _ _ Ht Ht' (count_nonneg s 0)
               (count_nonneg s' 0) E0).
    rewrite (contribution_ratio _ _ _ _ Ht Ht' (count_nonneg s 1)
               (count_nonneg s' 1) E1).
    reflexivity.
  - now rewrite (calculate_collapse_bias_ratio s Hs),
      (calculate_collapse_bias_ratio s' Hs'), E1.
Qed.

Lemma metrics_depend_on_proportion_witness :
  calculate_entropy [0; 1; 1]%Z = calculate_entropy [1; 1; 0; 1; 0; 1]%Z
  /\ calculate_collapse_bias [0; 1; 1]%Z =
     calculate_collapse_bias [1; 1; 0; 1; 0; 1]%Z.
Proof.
  apply (metrics_depend_on_proportion [0; 1; 1]%Z [1; 1; 0; 1; 0; 1]%Z).
  - discriminate.
  - discriminate.
  - intros x Hx. simpl in Hx. intuition.
  - intros x Hx. simpl in Hx. intuition.
  - reflexivity.
Defined.

(** ** Draws and runs *)

Section Draws.
Context `{RandomSource}.

Lemma comprehension_draws (noise : R) (n : nat) (s : rng_state) :
  comprehension noise n s =
  (map (fun r => collapse r (shifted_probability noise)) (draws n s),
   advance n s).
Proof.
  revert s. induction n as [|n IH]; intros s; [reflexivity|].
  cbn [comprehension draws advance map].
  rewrite quantum_gate_simulation_unfold, IH. reflexivity.
Qed.

Lemma advance_add (n m : nat) (s : rng_state) :
  advance (n + m) s = advance m (advance n s).
Proof. revert s. induction n as [|n IH]; intros s; simpl; auto. Qed.

Lemma draws_add (n m : nat) (s : rng_state) :
  draws (n + m) s = draws n s ++ draws m (advance n s).
Proof.
  revert s. induction n as [|n IH]; intros s; simpl; [reflexivity|].
  now rewrite IH.
Qed.

Lemma draws_range (n : nat) (s : rng_state) (r : R) :
  In r (draws n s) -> 0 <= r < 1.
Proof.
  revert s. induction n as [|n IH]; intros s; simpl; [tauto|].
  intros [<-|Hin]; [apply rng_random_range | eauto].
Qed.

Lemma outcomes_parts (noise : R) (n m : nat) (s : rng_state) :
  fst (comprehension noise (n + m) s) =
    fst (comprehension noise n s)
    ++ fst (comprehension noise m (snd (comprehension noise n s)))
  /\ snd (comprehension noise (n + m) s) =
     snd (comprehension noise m (snd (comprehension noise n s))).
Proof.
  rewrite !comprehension_draws. cbn [fst snd].
  rewrite ?comprehension_draws. cbn [fst snd].
  rewrite draws_add, advance_add, map_app. split; reflexivity.
Qed.

(** X12. The list comprehension of lines 87 and 89 calls
    [random.random()] once per trial and nothing else touches the random
    source: the outcomes are the next [n] draws, each compared with the same
    probability, in the order drawn, and the source is left [n] draws
    further.  Hence [n + m] trials are [n] trials followed by [m] trials. *)
Theorem outcomes_follow_the_draws (noise : R) (n m : nat) (s : rng_state) :
  fst (comprehension noise n s) =
    map (fun r => collapse r (shifted_probability noise)) (draws n s)
  /\ snd (comprehension noise n s) = advance n s
  /\ fst (comprehension noise (n + m) s) =
     fst (comprehension noise n s)
     ++ fst (comprehension noise m (snd (comprehension noise n s)))
  /\ snd (comprehension noise (n + m) s) =
     snd (comprehension noise m (snd (comprehension noise n s))).
Proof.
  rewrite !comprehension_draws. cbn [fst snd].
  rewrite ?comprehension_draws. cbn [fst snd].
  rewrite draws_add, advance_add, map_app. repeat split.
Qed.

(** X13. Without a seed a run goes on where the random source stands: two
    accepted runs of [n1] and [n2] trials at the same noise, one after the
    other, generate between them the outcomes of a single run of
    [n1 + n2] trials, and leave the random source where that run leaves
    it. *)
Theorem unseeded_runs_continue (n1 n2 : Z) (noise : R)
  (output1 output2 : option string) (graph1 graph2 ci_mode1 ci_mode2 : bool)
  (w : world) :
  (0 < n1)%Z -> (0 < n2)%Z -> 0 <= noise <= 1 ->
  let r1 := analyze n1 noise None output1 graph1 ci_mode1 w in
  let r2 := analyze n2 noise None output2 graph2 ci_mode2 (final r1) in
  let r := analyze (n1 + n2) noise None None false true w in
  exists fr1 fr2 fr,
    locals r1 = Some fr1 /\ locals r2 = Some fr2 /\ locals r = Some fr
    /\ results fr = results fr1 ++ results fr2
    /\ rng (final r2) = rng (final r).
Proof.
  intros Hn1 Hn2 Hnoise. cbv zeta.
  pose proof (analyze_accepts n1 noise None output1 graph1 ci_mode1 w
                Hn1 Hnoise) as A1.
  cbv zeta in A1. destruct A1 as (L1 & R1 & _).
  pose proof (analyze_accepts n2 noise None output2 graph2 ci_mode2
                (final (analyze n1 noise None output1 graph1 ci_mode1 w))
                Hn2 Hnoise) as A2.
  cbv zeta in A2. destruct A2 as (L2 & R2 & _).
  pose proof (analyze_accepts (n1 + n2) noise None None false true w
                ltac:(lia) Hnoise) as A.
  cbv zeta in A. destruct A as (L & R & _).
  cbn [seeded_rng] in *.
  do 3 eexists. split; [exact L1|]. split; [exact L2|]. split; [exact L|].
  unfold frame_of. cbn [results].
  rewrite R2, R, R1.
  rewrite Z2Nat.inj_add by lia.
  pose proof (outcomes_parts noise (Z.to_nat n1) (Z.to_nat n2) (rng w))
    as [Hres Hrng].
  split; [exact Hres | now rewrite Hrng].
Qed.

End Draws.

(** ** Console, files and exit status of a run *)

Section RunEffects.
Context `{RandomSource}.

Lemma classify_ci_console (e : R) (w : world) :
  console (snd (classify e true w)) = console w.
Proof.
  unfold classify.
  destruct (Py.ltb 0.8 e); [|destruct (Py.ltb 0.4 e)]; reflexivity.
Qed.

(** What a run that passes validation prints under [ci_mode]. *)
Lemma analyze_ci_console (simulations : Z) (noise : R) (seed : option Z)
  (output : option string) (graph : bool) (w : world) :
  (0 < simulations)%Z -> 0 <= noise <= 1 ->
  console (final (analyze simulations noise seed output graph true w)) =
  console w
  ++ match truthy output with
     | Some path =>
         match open_error w path with
         | Some e => [Markup [Lit "[bold red]❌ Error saving JSON: "; Lit e;
                              Lit "[/bold red]"]]
         | None => []
         end
     | None => []
     end.
Proof.
  intros Hs Hn. unfold analyze.
  destruct (Z.leb_spec simulations 0) as [Hs'|_]; [lia|].
  assert (E : negb (Py.leb 0.0 noise && Py.leb noise 1.0) = false).
  { apply negb_false_iff, andb_true_iff. rewrite !leb_true_iff. lra. }
  rewrite E. clear E. cbn [negb]. rewrite andb_false_r.
  match goal with
  | |- context [simulate noise simulations ?w0] => set (w0_ := w0)
  end.
  assert (Hw0 : console w0_ = console w /\ open_error w0_ = open_error w).
  { subst w0_. destruct seed; split; reflexivity. }
  destruct Hw0 as (Hc0 & He0).
  pose proof (simulate_world noise simulations w0_) as Hsim.
  destruct (simulate noise simulations w0_) as [res w1].
  cbn [snd] in Hsim. cbv zeta in Hsim.
  destruct Hsim as (_ & Hc1 & _ & He1).
  match goal with
  | |- context [classify ?e true w1] =>
      pose proof (classify_ci_console e w1) as Hc2;
      pose proof (classify_store e true w1) as Hst;
      destruct (classify e true w1) as [[msg code] w2]
  end.
  cbn [snd] in Hc2, Hst. destruct Hst as (_ & _ & He2).
  assert (Herr : open_error w2 = open_error w) by congruence.
  assert (Hcons : console w2 = console w) by congruence.
  destruct (truthy output) as [path|].
  - rewrite <- Herr. destruct (open_error w2 path) as [e|].
    + cbn [final console console_print]. now rewrite Hcons.
    + cbn [final console write_json]. rewrite Hcons.
      now rewrite app_nil_r.
  - cbn [final]. rewrite Hcons. now rewrite app_nil_r.
Qed.

(** X14. Under [ci_mode] a run that passes validation prints nothing, the
    seed notice and the report table included, unless the export fails; the
    error of a failed export is printed even then. *)
Theorem ci_mode_is_silent (simulations : Z) (noise : R) (seed : option Z)
  (output : option string) (graph : bool) (w : world) :
  (0 < simulations)%Z -> 0 <= noise <= 1 ->
  let r := analyze simulations noise seed output graph true w in
  ((forall path, truthy output = Some path -> open_error w path = None) ->
   console (final r) = console w)
  /\ (forall path e,
        truthy output = Some path -> open_error w path = Some e ->
        console (final r) =
        console w ++ [Markup [Lit "[bold red]❌ Error saving JSON: "; Lit e;
                              Lit "[/bold red]"]]).
Proof.
  intros Hs Hn. cbv zeta.
  rewrite (analyze_ci_console simulations noise seed output graph w Hs Hn).
  split.
  - intros Hok. destruct (truthy output) as [path|];
      [rewrite (Hok path eq_refl)|]; apply app_nil_r.
  - intros path e Hpath Herr. rewrite Hpath, Herr. reflexivity.
Qed.

(** X15. The flags [graph] and [ci_mode] are presentation only: two runs
    that differ in them alone compute the same local variables, leave the
    same random source and the same files, and exit with the same status. *)
Theorem presentation_flags_only_print (simulations : Z) (noise : R)
  (seed : option Z) (output : option string)
  (graph graph' ci_mode ci_mode' : bool) (w : world) :
  let r := analyze simulations noise seed output graph ci_mode w in
  let r' := analyze simulations noise seed output graph' ci_mode' w in
  locals r = locals r'
  /\ exit_status r = exit_status r'
  /\ rng (final r) = rng (final r')
  /\ files (final r) = files (final r')
  /\ open_error (final r) = open_error (final r').
Proof.
  cbv zeta.
  destruct (valid_or_not simulations noise) as [Hbad|[Hs Hn]].
  - pose proof (analyze_rejects simulations noise seed output graph ci_mode
                  w Hbad) as A.
    pose proof (analyze_rejects simulations noise seed output graph' ci_mode'
                  w Hbad) as A'.
    cbv zeta in A, A'.
    destruct A as (X & L & R & F & E & _), A' as (X' & L' & R' & F' & E' & _).
    repeat split; congruence.
  - pose proof (analyze_accepts simulations noise seed output graph ci_mode
                  w Hs Hn) as A.
    pose proof (analyze_accepts simulations noise seed output graph' ci_mode'
                  w Hs Hn) as A'.
    cbv zeta in A, A'.
    destruct A as (L & R & E & O), A' as (L' & R' & E' & O').
    split; [congruence|]. split; [|split; [congruence|split; [|congruence]]].
    + destruct (truthy output) as [path|];
        [destruct (open_error w path)|]; intuition congruence.
    + destruct (truthy output) as [path|];
        [destruct (open_error w path)|]; intuition congruence.
Qed.

(** X16. A run writes at most one file, and only through a non-empty
    [output]: every other path keeps its content; with no output, or the
    empty string as output, no file changes at all; and a run that fails
    validation writes nothing. *)
Theorem files_change_only_at_output (simulations : Z) (noise : R)
  (seed : option Z) (output : option string) (graph ci_mode : bool)
  (w : world) :
  let r := analyze simulations noise seed output graph ci_mode w in
  (forall p, output <> Some p -> files (final r) p = files w p)
  /\ (output = None \/ output = Some ""%string ->
      files (final r) = files w)
  /\ ((simulations <= 0)%Z \/ ~ (0 <= noise <= 1) ->
      files (final r) = files w).
Proof.
  cbv zeta.
  assert (Hrej : (simulations <= 0)%Z \/ ~ (0 <= noise <= 1) ->
                 files (final (analyze simulations noise seed output graph
                                 ci_mode w)) = files w).
  { intros Hbad.
    pose proof (analyze_rejects simulations noise seed output graph ci_mode
                  w Hbad) as A.
    cbv zeta in A. tauto. }
  destruct (valid_or_not simulations noise) as [Hbad|[Hs Hn]].
  - rewrite (Hrej Hbad). repeat split; auto.
  - pose proof (analyze_accepts simulations noise seed output graph ci_mode
                  w Hs Hn) as A.
    cbv zeta in A. destruct A as (_ & _ & _ & O).
    split; [|split; [|exact Hrej]].
    + intros p Hp. unfold truthy in O. destruct output as [path|].
      * destruct (String.eqb_spec path "").
        -- destruct O as [_ ->]. reflexivity.
        -- destruct (open_error w path).
           ++ destruct O as (_ & -> & _). reflexivity.
           ++ destruct O as [_ ->].
              destruct (String.eqb_spec p path); [congruence | reflexivity].
      * destruct O as [_ ->]. reflexivity.
    + intros [-> | ->]; cbn in O; tauto.
Qed.

End RunEffects.

(** ** Exit status, export and the distribution *)



Section Chart.
Context `{RandomSource}.


End Chart.


Section RunOutcome.
Context `{RandomSource}.

Lemma tier_exit_code (e : R) :
  (0.8 < e /\ snd (tier e) = 1%Z) \/ (e <= 0.8 /\ snd (tier e) = 0%Z).
Proof.
  destruct (tier_cases e) as [[He E]|[(He & _ & E)|[He E]]]; rewrite E;
    [left | right | right]; split; simpl; try reflexivity; lra.
Qed.

Lemma frame_of_counts (noise : R) (simulations : Z) (s0 : rng_state) :
  (0 < simulations)%Z ->
  let fr := frame_of noise simulations s0 in
  Py.len (results fr) = simulations
  /\ binary (results fr)
  /\ state_0_count fr = Py.count (results fr) 0
  /\ state_1_count fr = Py.count (results fr) 1
  /\ (state_0_count fr + state_1_count fr = simulations)%Z.
Proof.
  intros Hs. cbv zeta. unfold frame_of.
  cbn [results state_0_count state_1_count].
  set (res := fst (comprehension noise (Z.to_nat simulations) s0)).
  assert (Hlen : Py.len res = simulations).
  { unfold Py.len, res. rewrite comprehension_length. lia. }
  assert (Hb : binary res) by apply comprehension_binary.
  rewrite !get_Counter. pose proof (binary_count_len res Hb).
  repeat split; try assumption; try reflexivity. lia.
Qed.

Lemma analyze_same_store (simulations : Z) (noise : R) (seed : option Z)
  (output : option string) (graph ci_mode : bool) (w w' : world) :
  same_store w w' ->
  let r := analyze simulations noise seed output graph ci_mode w in
  let r' := analyze simulations noise seed output graph ci_mode w' in
  locals r = locals r' /\ exit_status r = exit_status r'
  /\ rng (final r) = rng (final r') /\ files (final r) = files (final r').
Proof.
  intros (Hrng & Hfiles & Herr). cbv zeta.
  assert (Hseed : seeded_rng seed w = seeded_rng seed w')
    by (destruct seed; simpl; congruence).
  destruct (valid_or_not simulations noise) as [Hbad|[Hs Hn]].
  - pose proof (analyze_rejects simulations noise seed output graph ci_mode
                  w Hbad) as A.
    pose proof (analyze_rejects simulations noise seed output graph ci_mode
                  w' Hbad) as A'.
    cbv zeta in A, A'.
    destruct A as (X & L & R & F & _), A' as (X' & L' & R' & F' & _).
    repeat split; congruence.
  - pose proof (analyze_accepts simulations noise seed output graph ci_mode
                  w Hs Hn) as A.
    pose proof (analyze_accepts simulations noise seed output graph ci_mode
                  w' Hs Hn) as A'.
    cbv zeta in A, A'.
    destruct A as (L & R & _ & O), A' as (L' & R' & _ & O').
    rewrite <- Hseed, <- Herr, <- Hfiles in *.
    split; [congruence|]. split; [|split; [congruence|]].
    + destruct (truthy output) as [path|];
        [destruct (open_error w path)|]; intuition congruence.
    + destruct (truthy output) as [path|];
        [destruct (open_error w path)|]; intuition congruence.
Qed.

(** X18. The exit status of [analyze] is 0 or 1, and it is 0 exactly when
    the input passes validation, the entropy of the generated outcomes is
    at most 0.8, and the export, if one is asked for, does not fail. *)
Theorem exit_status_characterised (simulations : Z) (noise : R)
  (seed : option Z) (output : option string) (graph ci_mode : bool)
  (w : world) :
  let r := analyze simulations noise seed output graph ci_mode w in
  let e :=
    calculate_entropy
      (fst (comprehension noise (Z.to_nat simulations) (seeded_rng seed w))) in
  (exit_status r = 0%Z \/ exit_status r = 1%Z)
  /\ (exit_status r = 0%Z <->
      (0 < simulations)%Z /\ 0 <= noise <= 1 /\ e <= 0.8
      /\ (forall path, truthy output = Some path ->
                       open_error w path = None)).
Proof.
  cbv zeta.
  destruct (valid_or_not simulations noise) as [Hbad|[Hs Hn]].
  - pose proof (analyze_rejects simulations noise seed output graph ci_mode
                  w Hbad) as A.
    cbv zeta in A. destruct A as (X & _). rewrite X.
    split; [now right|]. split; [discriminate|].
    intros (Hs & Hn & _). destruct Hbad; [lia | tauto].
  - pose proof (analyze_accepts simulations noise seed output graph ci_mode
                  w Hs Hn) as A.
    cbv zeta in A. destruct A as (_ & _ & _ & O).
    unfold frame_of in O. cbn [exit_code] in O.
    set (e := calculate_entropy _) in *.
    destruct (tier_exit_code e) as [[He Hc]|[He Hc]]; rewrite Hc in O;
      (destruct (truthy output) as [path|];
       [destruct (open_error w path) as [err|] eqn:Herr|]).
    + destruct O as (X & _). rewrite X. split; [now right|].
      split; [discriminate | intros (_ & _ & ? & _); lra].
    + destruct O as (X & _). rewrite X. split; [now right|].
      split; [discriminate | intros (_ & _ & ? & _); lra].
    + destruct O as (X & _). rewrite X. split; [now right|].
      split; [discriminate | intros (_ & _ & ? & _); lra].
    + destruct O as (X & _). rewrite X. split; [now right|].
      split; [discriminate|].
      intros (_ & _ & _ & Hok). specialize (Hok path eq_refl). congruence.
    + destruct O as (X & _). rewrite X. split; [now left|].
      split; [|reflexivity]. intros _. repeat split; try assumption; try lra.
      intros p Hp. congruence.
    + destruct O as (X & _). rewrite X. split; [now left|].
      split; [|reflexivity]. intros _. repeat split; try assumption; try lra.
      intros p Hp. discriminate.
Qed.

(** X19. The counts that a run reports are those of its outcomes: the
    0-count and the 1-count are the numbers of 0 and of 1 generated, they add
    up to the number of trials, and the bias is the distance between the
    share of 1s and one half. *)
Theorem reported_distribution (simulations : Z) (noise : R)
  (seed : option Z) (output : option string) (graph ci_mode : bool)
  (w : world) :
  (0 < simulations)%Z -> 0 <= noise <= 1 ->
  exists fr,
    locals (analyze simulations noise seed output graph ci_mode w) = Some fr
    /\ state_0_count fr = Py.count (results fr) 0
    /\ state_1_count fr = Py.count (results fr) 1
    /\ (state_0_count fr + state_1_count fr = simulations)%Z
    /\ (0 <= state_0_count fr)%Z /\ (0 <= state_1_count fr)%Z
    /\ bias fr = Rabs (Py.truediv (state_1_count fr) simulations - 0.5).
Proof.
  intros Hs Hn.
  pose proof (analyze_accepts simulations noise seed output graph ci_mode
                w Hs Hn) as A.
  cbv zeta in A. destruct A as (L & _).
  eexists. split; [exact L|].
  pose proof (frame_of_counts noise simulations (seeded_rng seed w) Hs) as F.
  cbv zeta in F. destruct F as (Hlen & Hb & C0 & C1 & Hsum).
  set (fr := frame_of noise simulations (seeded_rng seed w)) in *.
  split; [exact C0|]. split; [exact C1|]. split; [exact Hsum|].
  split; [rewrite C0; apply count_nonneg|].
  split; [rewrite C1; apply count_nonneg|].
  assert (Hbias : bias fr = calculate_collapse_bias (results fr))
    by reflexivity.
  assert (Hne : results fr <> []).
  { intros E. apply len_zero_iff in E. lia. }
  now rewrite Hbias, (calculate_collapse_bias_ratio _ Hne), Hlen, C1.
Qed.

End RunOutcome.

Section RunExport.
Context `{RandomSource}.

(** X20. When the export succeeds the file holds a report of the shape
    [{simulations, noise_level, seed, metrics: {entropy, bias,
    distribution: {0_fail, 1_pass}}, status}] whose fields agree with each
    other and with the run: the inputs as given ([seed] null when there is
    none), an entropy in [[0, 1]], a bias in [[0, 0.5]], two counts that add
    up to [simulations], the status of that entropy, and an exit status that
    is the one this status asks for. *)
Theorem exported_report_shape (simulations : Z) (noise : R)
  (seed : option Z) (output : option string) (graph ci_mode : bool)
  (w : world) (path : string) :
  (0 < simulations)%Z -> 0 <= noise <= 1 ->
  truthy output = Some path -> open_error w path = None ->
  let r := analyze simulations noise seed output graph ci_mode w in
  exists e b c0 c1,
    files (final r) path =
    Some (JObject
            [("simulations"%string, JInt simulations);
             ("noise_level"%string, JFloat noise);
             ("seed"%string,
              match seed with Some s => JInt s | None => JNull end);
             ("metrics"%string,
              JObject
                [("entropy"%string, JFloat e);
                 ("bias"%string, JFloat b);
                 ("distribution"%string,
                  JObject [("0_fail"%string, JInt c0);
                           ("1_pass"%string, JInt c1)])]);
             ("status"%string, JString (fst (tier e)))])
    /\ 0 <= e <= 1 /\ 0 <= b <= 0.5
    /\ (c0 + c1 = simulations)%Z /\ (0 <= c0)%Z /\ (0 <= c1)%Z
    /\ exit_status r = snd (tier e).
Proof.
  intros Hs Hn Hpath Hopen. cbv zeta.
  pose proof (analyze_accepts simulations noise seed output graph ci_mode
                w Hs Hn) as A.
  cbv zeta in A. destruct A as (_ & _ & _ & O).
  rewrite Hpath, Hopen in O. destruct O as [X F].
  pose proof (frame_of_counts noise simulations (seeded_rng seed w) Hs) as C.
  cbv zeta in C. destruct C as (Hlen & Hb & C0 & C1 & Hsum).
  set (fr := frame_of noise simulations (seeded_rng seed w)) in *.
  exists (entropy fr), (bias fr), (state_0_count fr), (state_1_count fr).
  split; [rewrite F, String.eqb_refl; reflexivity|].
  split; [apply (calculate_entropy_range (results fr) Hb)|].
  split; [apply calculate_collapse_bias_range|].
  split; [exact Hsum|].
  split; [rewrite C0; apply count_nonneg|].
  split; [rewrite C1; apply count_nonneg|].
  exact X.
Qed.

(** X21. A failed export makes the run exit with status 1 whatever the
    status tier, after the metrics are computed: the local variables are
    those of the run without export, no file changes, and the error is the
    last thing printed. *)
Theorem failed_export_exits_1 (simulations : Z) (noise : R)
  (seed : option Z) (output : option string) (graph ci_mode : bool)
  (w : world) (path err : string) :
  (0 < simulations)%Z -> 0 <= noise <= 1 ->
  truthy output = Some path -> open_error w path = Some err ->
  let r := analyze simulations noise seed output graph ci_mode w in
  exit_status r = 1%Z
  /\ locals r = locals (analyze simulations noise seed None graph ci_mode w)
  /\ (exists fr, locals r = Some fr)
  /\ files (final r) = files w
  /\ exists printed,
      console (final r) =
      printed ++ [Markup [Lit "[bold red]❌ Error saving JSON: "; Lit err;
                          Lit "[/bold red]"]].
Proof.
  intros Hs Hn Hpath Herr. cbv zeta.
  pose proof (analyze_accepts simulations noise seed output graph ci_mode
                w Hs Hn) as A.
  pose proof (analyze_accepts simulations noise seed None graph ci_mode
                w Hs Hn) as A0.
  cbv zeta in A, A0. destruct A as (L & _ & _ & O), A0 as (L0 & _).
  rewrite Hpath, Herr in O. destruct O as (X & F & P).
  split; [exact X|]. split; [congruence|]. split; [eauto|].
  split; [exact F | exact P].
Qed.

(** X22. At noise 1 every outcome is 0 whatever the random source draws: the
    run reports [simulations] fails and no pass, entropy 0, bias 0.5 and the
    status STABLE, with exit code 0. *)
Theorem full_noise_is_stable (simulations : Z) (seed : option Z)
  (output : option string) (graph ci_mode : bool) (w : world) :
  (0 < simulations)%Z ->
  exists fr,
    locals (analyze simulations 1 seed output graph ci_mode w) = Some fr
    /\ (forall x, In x (results fr) -> x = 0%Z)
    /\ state_0_count fr = simulations /\ state_1_count fr = 0%Z
    /\ entropy fr = 0 /\ bias fr = 0.5
    /\ status_msg fr = "STABLE: System appears robust."%string
    /\ exit_code fr = 0%Z.
Proof.
  intros Hs.
  pose proof (analyze_accepts simulations 1 seed output graph ci_mode w Hs
                ltac:(lra)) as A.
  cbv zeta in A. destruct A as (L & _).
  eexists. split; [exact L|].
  pose proof (frame_of_counts 1 simulations (seeded_rng seed w) Hs) as C.
  cbv zeta in C. destruct C as (Hlen & Hb & C0 & C1 & Hsum).
  set (fr := frame_of 1 simulations (seeded_rng seed w)) in *.
  assert (Hall : forall x, In x (results fr) -> x = 0%Z).
  { unfold fr, frame_of. cbn [results]. rewrite comprehension_draws.
    cbn [fst]. intros x Hx. apply in_map_iff in Hx.
    destruct Hx as [r [<- Hr]]. apply draws_range in Hr.
    replace (shifted_probability 1) with 0
      by (rewrite shifted_probability_valid; lra).
    destruct (collapse_binary r 0) as [E|E]; [exact E|].
    apply collapse_one_iff in E. lra. }
  assert (Hne : results fr <> []).
  { intros E. apply len_zero_iff in E. lia. }
  destruct (metrics_constant (results fr) 0 Hne (or_introl eq_refl) Hall)
    as [He Hbias].
  assert (H1 : Py.count (results fr) 1 = 0%Z).
  { apply count_notin. intros Hin. apply Hall in Hin. discriminate. }
  split; [exact Hall|]. split; [lia|]. split; [lia|].
  assert (Hent : entropy fr = 0) by exact He.
  split; [exact Hent|]. split; [exact Hbias|].
  assert (Ht : tier (entropy fr)
               = ("STABLE: System appears robust."%string, 0%Z)).
  { rewrite Hent.
    destruct (tier_cases 0) as [[? _]|[(_ & ? & _)|[_ E]]];
      [lra | lra | exact E]. }
  unfold fr, frame_of in Ht |- *. cbn [entropy status_msg exit_code] in *.
  rewrite Ht. split; reflexivity.
Qed.

(** X23. [version] prints its line and does nothing else: it leaves the
    random source and the files as they are, so a run of [analyze] after
    it, seeded or not, computes the same local variables, exits with the
    same status and leaves the same random source and files as without
    it. *)
Theorem version_only_prints (simulations : Z) (noise : R) (seed : option Z)
  (output : option string) (graph ci_mode : bool) (w : world) :
  let r := analyze simulations noise seed output graph ci_mode w in
  let r' := analyze simulations noise seed output graph ci_mode (version w) in
  console (version w) = console w ++ [Markup [Lit "q-drift v0.3.0 ⚛️"]]
  /\ rng (version w) = rng w /\ files (version w) = files w
  /\ locals r' = locals r /\ exit_status r' = exit_status r
  /\ rng (final r') = rng (final r) /\ files (final r') = files (final r).
Proof.
  cbv zeta.
  pose proof (analyze_same_store simulations noise seed output graph ci_mode
                w (version w) (console_print_store _ w)) as S.
  cbv zeta in S. destruct S as (L & X & R & F).
  repeat split; congruence.
Qed.

End RunExport.

(** ** The further properties on concrete runs *)

Lemma unseeded_runs_continue_witness :
  exists fr1 fr2 fr,
    locals (analyze 1 0.5 None None true true (fresh 0)) = Some fr1
    /\ locals (analyze 2 0.5 None None false true
                 (final (analyze 1 0.5 None None true true (fresh 0))))
       = Some fr2
    /\ locals (analyze (1 + 2) 0.5 None None false true (fresh 0)) = Some fr
    /\ results fr = results fr1 ++ results fr2
    /\ rng (final (analyze 2 0.5 None None false true
                     (final (analyze 1 0.5 None None true true (fresh 0)))))
       = rng (final (analyze (1 + 2) 0.5 None None false true (fresh 0))).
Proof.
  apply (@unseeded_runs_continue digit_source 1 2 0.5 None None
           true false true true (fresh 0)); [lia | lia | lra].
Defined.

Lemma ci_mode_is_silent_witness :
  ((forall path,
      truthy (Some "report.json"%string) = Some path ->
      open_error (fresh 0) path = None) ->
   console (final (analyze 2 0.5 (Some 0%Z) (Some "report.json"%string)
                     true true (fresh 0)))
   = console (fresh 0))
  /\ (forall path e,
        truthy (Some "report.json"%string) = Some path ->
        open_error (fresh 0) path = Some e ->
        console (final (analyze 2 0.5 (Some 0%Z) (Some "report.json"%string)
                          true true (fresh 0)))
        = console (fresh 0)
          ++ [Markup [Lit "[bold red]❌ Error saving JSON: "; Lit e;
                      Lit "[/bold red]"]]).
Proof.
  apply (@ci_mode_is_silent digit_source 2 0.5 (Some 0%Z)
           (Some "report.json"%string) true (fresh 0)); [lia | lra].
Defined.

Lemma reported_distribution_witness :
  exists fr,
    locals (analyze 2 0.5 (Some 0%Z) None true true (fresh 0)) = Some fr
    /\ state_0_count fr = Py.count (results fr) 0
    /\ state_1_count fr = Py.count (results fr) 1
    /\ (state_0_count fr + state_1_count fr = 2)%Z
    /\ (0 <= state_0_count fr)%Z /\ (0 <= state_1_count fr)%Z
    /\ bias fr = Rabs (Py.truediv (state_1_count fr) 2 - 0.5).
Proof.
  apply (@reported_distribution digit_source 2 0.5 (Some 0%Z) None true true
           (fresh 0)); [lia | lra].
Defined.

Lemma exported_report_shape_witness :
  exists e b c0 c1,
    files (final (analyze 2 0.5 None (Some "report.json"%string)
                    true true (fresh 0)))
      "report.json"%string =
    Some (JObject
            [("simulations"%string, JInt 2);
             ("noise_level"%string, JFloat 0.5);
             ("seed"%string, JNull);
             ("metrics"%string,
              JObject
                [("entropy"%string, JFloat e);
                 ("bias"%string, JFloat b);
                 ("distribution"%string,
                  JObject [("0_fail"%string, JInt c0);
                           ("1_pass"%string, JInt c1)])]);
             ("status"%string, JString (fst (tier e)))])
    /\ 0 <= e <= 1 /\ 0 <= b <= 0.5
    /\ (c0 + c1 = 2)%Z /\ (0 <= c0)%Z /\ (0 <= c1)%Z
    /\ exit_status (analyze 2 0.5 None (Some "report.json"%string)
                      true true (fresh 0)) = snd (tier e).
Proof.
  apply (@exported_report_shape digit_source 2 0.5 None
           (Some "report.json"%string) true true (fresh 0)
           "report.json"%string); [lia | lra | reflexivity | reflexivity].
Defined.

Lemma failed_export_exits_1_witness :
  exit_status (analyze 2 1 None (Some "report.json"%string)
                 true true (read_only 0)) = 1%Z
  /\ locals (analyze 2 1 None (Some "report.json"%string)
               true true (read_only 0))
     = locals (analyze 2 1 None None true true (read_only 0))
  /\ (exists fr,
        locals (analyze 2 1 None (Some "report.json"%string)
                  true true (read_only 0)) = Some fr)
  /\ files (final (analyze 2 1 None (Some "report.json"%string)
                     true true (read_only 0)))
     = files (read_only 0)
  /\ exists printed,
      console (final (analyze 2 1 None (Some "report.json"%string)
                        true true (read_only 0))) =
      printed ++ [Markup [Lit "[bold red]❌ Error saving JSON: ";
                          Lit "Permission denied"; Lit "[/bold red]"]].
Proof.
  apply (@failed_export_exits_1 digit_source 2 1 None
           (Some "report.json"%string) true true (read_only 0)
           "report.json"%string "Permission denied"%string);
    [lia | lra | reflexivity | reflexivity].
Defined.

Lemma full_noise_is_stable_witness :
  exists fr,
    locals (analyze 3 1 None None true true (fresh 4)) = Some fr
    /\ (forall x, In x (results fr) -> x = 0%Z)
    /\ state_0_count fr = 3%Z /\ state_1_count fr = 0%Z
    /\ entropy fr = 0 /\ bias fr = 0.5
    /\ status_msg fr = "STABLE: System appears robust."%string
    /\ exit_code fr = 0%Z.
Proof.
  apply (@full_noise_is_stable digit_source 3 None None true true (fresh 4)).
  lia.
Defined.

(** ** The console only grows *)

Section ConsoleGrows.
Context `{RandomSource}.

Lemma console_extends_refl (w : world) : console_extends w w.
Proof. exists []. now rewrite app_nil_r. Qed.

Lemma console_extends_trans (w1 w2 w3 : world) :
  console_extends w1 w2 -> console_extends w2 w3 -> console_extends w1 w3.
Proof.
  intros [l1 E1] [l2 E2]. exists (l1 ++ l2). now rewrite E2, E1, app_assoc.
Qed.

Lemma console_extends_same (w w' : world) :
  console w' = console w -> console_extends w w'.
Proof. intros E. exists []. now rewrite app_nil_r. Qed.

Lemma console_print_extends (r : renderable) (w : world) :
  console_extends w (console_print r w).
Proof. now exists [r]. Qed.

Lemma render_distribution_chart_extends (c0 c1 : Z) (w : world) :
  console_extends w (render_distribution_chart c0 c1 w).
Proof.
  unfold render_distribution_chart. destruct (c0 + c1 =? 0)%Z.
  - apply console_extends_refl.
  - apply console_print_extends.
Qed.

Lemma classify_extends (e : R) (ci_mode : bool) (w : world) :
  console_extends w (snd (classify e ci_mode w)).
Proof.
  unfold classify.
  destruct (Py.ltb 0.8 e); [|destruct (Py.ltb 0.4 e)]; destruct ci_mode;
    cbn [snd negb]; first [apply console_extends_refl
                          | apply console_print_extends].
Qed.

(** Closes a goal [console_extends w w'] where [w'] is [w] after prints,
    charts and branches on flags. *)
Ltac grows :=
  repeat first
    [ apply console_extends_refl
    | assumption
    | eapply console_extends_trans; [|apply console_print_extends]
    | eapply console_extends_trans;
      [|apply render_distribution_chart_extends] ].

(** X24. [analyze] only ever adds lines at the end of the console: whatever
    the inputs, what was printed before the run is still there, in the same
    order, before what the run prints. *)
Theorem analyze_console_grows (simulations : Z) (noise : R)
  (seed : option Z) (output : option string) (graph ci_mode : bool)
  (w : world) :
  exists printed,
    console (final (analyze simulations noise seed output graph ci_mode w)) =
    console w ++ printed.
Proof.
  change (console_extends w
            (final (analyze simulations noise seed output graph ci_mode w))).
  unfold analyze.
  match goal with
  | |- context [simulate noise simulations ?w0] => set (w0_ := w0)
  end.
  assert (H0 : console_extends w w0_).
  { subst w0_. destruct seed, ci_mode; cbn [negb];
      try apply console_extends_refl.
    - apply console_extends_same. reflexivity.
    - eapply console_extends_trans; [|apply console_print_extends].
      apply console_extends_same. reflexivity. }
  destruct (simulations <=? 0)%Z; [cbn [final]; grows|].
  destruct (negb (Py.leb 0.0 noise && Py.leb noise 1.0));
    [cbn [final]; grows|].
  replace (if negb ci_mode then simulate noise simulations w0_
           else simulate noise simulations w0_)
    with (simulate noise simulations w0_) by (now destruct ci_mode).
  pose proof (simulate_world noise simulations w0_) as Hsim.
  destruct (simulate noise simulations w0_) as [res w1].
  cbn [snd] in Hsim. cbv zeta in Hsim. destruct Hsim as (_ & Hc1 & _ & _).
  assert (H1 : console_extends w w1).
  { eapply console_extends_trans; [exact H0|].
    now apply console_extends_same. }
  match goal with
  | |- context [classify ?e ci_mode ?w2] =>
      pose proof (classify_extends e ci_mode w2) as Hcl;
      assert (H2 : console_extends w w2)
  end.
  { destruct graph, ci_mode; cbn [andb negb]; grows. }
  pose proof (console_extends_trans _ _ _ H2 Hcl) as H3. clear Hcl.
  match goal with
  | H : context [classify ?e ci_mode ?w2] |- _ =>
      destruct (classify e ci_mode w2) as [[msg code] w3]
  end.
  cbn [snd] in H3.
  destruct (truthy output) as [path|]; [|cbn [final]; exact H3].
  destruct (open_error w3 path) as [err|]; cbn [final]; [grows|].
  destruct ci_mode; cbn [negb].
  - eapply console_extends_trans; [exact H3|].
    apply console_extends_same. reflexivity.
  - eapply console_extends_trans; [|apply console_print_extends].
    eapply console_extends_trans; [exact H3|].
    apply console_extends_same. reflexivity.
Qed.

End ConsoleGrows.

(** ** NaN in the generator *)

(** X25. On binary64 floats a NaN noise does not give a NaN probability:
    [min(1.0, nan)] keeps its first argument, so the probability is 1.0 and
    every draw below 1.0 passes.  Only the validation of [analyze] keeps a
    NaN away from the generator. *)
Theorem binary64_nan_noise_always_passes (noise draw : float) :
  Prim2SF noise = S754_nan ->
  Binary64.shifted_probability noise = 1.0%float
  /\ noise_accepted_binary64 noise = false
  /\ (PrimFloat.ltb draw 1.0%float = true ->
      Binary64.collapse draw (Binary64.shifted_probability noise) = 1%Z).
Proof.
  intros Hnan.
  assert (Hp : Binary64.shifted_probability noise = 1.0%float).
  { unfold Binary64.shifted_probability, Binary64.py_max, Binary64.py_min.
    cbv zeta.
    assert (Hlt : PrimFloat.ltb (0.9 * (1.0 - noise)) 1.0 = false).
    { rewrite ltb_spec, mul_spec, sub_spec, Hnan. reflexivity. }
    rewrite Hlt. reflexivity. }
  split; [exact Hp|]. split.
  - unfold noise_accepted_binary64. rewrite leb_spec, Hnan. reflexivity.
  - intros Hdraw. rewrite Hp. unfold Binary64.collapse. now rewrite Hdraw.
Qed.

Lemma binary64_nan_noise_always_passes_witness :
  Binary64.shifted_probability PrimFloat.nan = 1.0%float
  /\ noise_accepted_binary64 PrimFloat.nan = false
  /\ (PrimFloat.ltb 0.25%float 1.0%float = true ->
      Binary64.collapse 0.25%float
        (Binary64.shifted_probability PrimFloat.nan) = 1%Z).
Proof.
  apply (binary64_nan_noise_always_passes PrimFloat.nan 0.25%float).
  reflexivity.
Defined.
